(** * viroconcom: the conditional-parameter fitting engine ([viroconcom/fitting.py])

    A shallow embedding of [BasicFit], [FitInspectionData] and the static and
    instance methods of [Fit], followed by the properties established about
    them.

    Conventions of the embedding.
    - A Python float and a [numpy.float64] are IEEE 754 binary64 numbers:
      [float] is the kernel's primitive type, and [+], [-], [*], [/] and the
      comparisons are the correctly rounded operations of the hardware.  A
      literal such as [0.1] denotes the double nearest to it.  [np.log], the
      scipy / statsmodels estimators and the constructors of
      [viroconcom/distributions.py] are parameters of the development.
    - NumPy is taken as of version 1.20 or later, compiled without fused
      multiply-add: [np.arange] and [np.linspace] follow the arithmetic of
      [PyArray_ArangeObj] and of [numpy/core/function_base.py] step by step.
      Arrays have no size limit other than the range of [npy_intp], and the
      warnings NumPy itself issues are not recorded.
    - A Python exception is a value [Raise cls msg]; a computation that may
      raise returns a [result].  Messages of exceptions raised by the
      interpreter itself ([AttributeError], [IndexError], ...) follow the
      wording of CPython 3, those of NumPy are shortened; messages built
      with [str.format] from a float are not modelled (warnings are
      structured values instead).
    - Warnings and calls to the external estimators are recorded, in order,
      in a trace of [event]s carried by the monad [M].
    - [numpy.delete] with an index outside the array raises [IndexError].
    - [numpy.argsort] leaves the order of equal keys open; the embedding
      keeps equal keys in their original order.  NaN keys sort last.
    - The tuples [dependency] and [functions] are sequences of any length,
      dimension indices are non-negative. *)

From Stdlib Require Import Floats.
From Stdlib Require Import List String Ascii Bool Arith ZArith QArith Qround Lia.
From Stdlib Require Import DecimalString Permutation.
Import ListNotations.

Set Warnings "-inexact-float".

Local Open Scope string_scope.
Local Open Scope list_scope.
Local Open Scope nat_scope.

(** ** Python values and exceptions *)

Inductive exn_class :=
| AttributeError
| IndexError
| TypeError
| ValueError
| RuntimeError
| NotImplementedError
| UnboundLocalError
| OverflowError
| ZeroDivisionError.

Record exn := Raise { exn_cls : exn_class; exn_msg : string }.

Definition exn_class_eqb (a b : exn_class) : bool :=
  match a, b with
  | AttributeError, AttributeError
  | IndexError, IndexError
  | TypeError, TypeError
  | ValueError, ValueError
  | RuntimeError, RuntimeError
  | NotImplementedError, NotImplementedError
  | UnboundLocalError, UnboundLocalError
  | OverflowError, OverflowError
  | ZeroDivisionError, ZeroDivisionError => true
  | _, _ => false
  end.

(** [except cls:] also catches the subclasses of [cls]; among the classes
    above the only proper subclass is [NotImplementedError] of
    [RuntimeError]. *)
Definition isinstance (e : exn) (cls : exn_class) : bool :=
  exn_class_eqb (exn_cls e) cls
  || (exn_class_eqb (exn_cls e) NotImplementedError && exn_class_eqb cls RuntimeError).

Inductive result (A : Type) :=
| Ok (a : A)
| Err (e : exn).
Arguments Ok {A} a.
Arguments Err {A} e.

Definition rbind {A B} (r : result A) (k : A -> result B) : result B :=
  match r with
  | Ok a => k a
  | Err e => Err e
  end.

Declare Scope result_scope.
Delimit Scope result_scope with result.
Notation "x <-r c ; k" := (rbind c (fun x => k))
  (at level 61, c at next level, right associativity) : result_scope.

(** [str(n)] for a non-negative int. *)
Definition str (n : nat) : string := NilEmpty.string_of_uint (Nat.to_uint n).

(** [l[i]] for a list and a non-negative index. *)
Definition getitem {A} (l : list A) (i : nat) : result A :=
  match nth_error l i with
  | Some a => Ok a
  | None => Err (Raise IndexError "list index out of range")
  end.

(** [l.append(x)] where [l] is either [None] or a list. *)
Definition append {A} (l : option (list A)) (x : A) : result (option (list A)) :=
  match l with
  | Some xs => Ok (Some (xs ++ [x]))
  | None => Err (Raise AttributeError "'NoneType' object has no attribute 'append'")
  end.

(** [l[i]] where [l] is either [None] or a list. *)
Definition subscript {A} (l : option (list A)) (i : nat) : result A :=
  match l with
  | Some xs => getitem xs i
  | None => Err (Raise TypeError "'NoneType' object is not subscriptable")
  end.

(** [l[i] = x] for a list. *)
Fixpoint setitem {A} (l : list A) (i : nat) (x : A) : result (list A) :=
  match l, i with
  | [], _ => Err (Raise IndexError "list assignment index out of range")
  | _ :: t, O => Ok (x :: t)
  | h :: t, S j =>
      match setitem t j x with
      | Ok t' => Ok (h :: t')
      | Err e => Err e
      end
  end.

(** ** Parameters ([params.py]) and [BasicFit] *)

(** [ConstantParam(v)] and [FunctionParam(a, b, c, func_name)], kept as the
    constructor calls that build them. *)
Inductive param :=
| ConstantParam (v : float)
| FunctionParam (a b c : float) (func_name : option string).

Record BasicFit := mkBasicFit {
  shape : param;
  loc : param;
  scale : param;
  samples : list float
}.

(** ** [FitInspectionData] *)

Record FitInspectionData := mkFitInspectionData {
  used_number_of_intervals : option nat;
  shape_at : option (list float);
  _shape_value : list (option (list param));
  loc_at : option (list float);
  _loc_value : list (option (list param));
  scale_at : option (list float);
  _scale_value : list (option (list param));
  shape_samples : option (list (list float));
  loc_samples : option (list (list float));
  scale_samples : option (list (list float))
}.

(** [FitInspectionData.__init__] *)
Definition FitInspectionData_init : FitInspectionData :=
  {| used_number_of_intervals := None;
     shape_at := None;
     _shape_value := [None; None; None];
     loc_at := None;
     _loc_value := [None; None; None];
     scale_at := None;
     _scale_value := [None; None; None];
     shape_samples := None;
     loc_samples := None;
     scale_samples := None |}.

(** [value[k].append(x)] for one of the [_*_value] lists. *)
Definition append_at (value : list (option (list param))) (k : nat) (x : param)
  : result (list (option (list param))) :=
  (l <-r getitem value k ;
   l' <-r append l x ;
   setitem value k l')%result.

Definition unknown_parameter (p : string) : exn :=
  Raise ValueError ("Parameter '" ++ p ++ "' is unknown.")%string.

(** [FitInspectionData.append_basic_fit] *)
Definition append_basic_fit (self : FitInspectionData) (p : string) (basic_fit : BasicFit)
  : result FitInspectionData :=
  if String.eqb p "shape" then
    (v0 <-r append_at (_shape_value self) 0 (shape basic_fit) ;
     v1 <-r append_at v0 1 (loc basic_fit) ;
     v2 <-r append_at v1 2 (scale basic_fit) ;
     s <-r append (shape_samples self) (samples basic_fit) ;
     Ok {| used_number_of_intervals := used_number_of_intervals self;
           shape_at := shape_at self; _shape_value := v2;
           loc_at := loc_at self; _loc_value := _loc_value self;
           scale_at := scale_at self; _scale_value := _scale_value self;
           shape_samples := s;
           loc_samples := loc_samples self;
           scale_samples := scale_samples self |})%result
  else if String.eqb p "loc" then
    (v0 <-r append_at (_loc_value self) 0 (shape basic_fit) ;
     v1 <-r append_at v0 1 (loc basic_fit) ;
     v2 <-r append_at v1 2 (scale basic_fit) ;
     s <-r append (loc_samples self) (samples basic_fit) ;
     Ok {| used_number_of_intervals := used_number_of_intervals self;
           shape_at := shape_at self; _shape_value := _shape_value self;
           loc_at := loc_at self; _loc_value := v2;
           scale_at := scale_at self; _scale_value := _scale_value self;
           shape_samples := shape_samples self;
           loc_samples := s;
           scale_samples := scale_samples self |})%result
  else if String.eqb p "scale" then
    (v0 <-r append_at (_scale_value self) 0 (shape basic_fit) ;
     v1 <-r append_at v0 1 (loc basic_fit) ;
     v2 <-r append_at v1 2 (scale basic_fit) ;
     s <-r append (scale_samples self) (samples basic_fit) ;
     Ok {| used_number_of_intervals := used_number_of_intervals self;
           shape_at := shape_at self; _shape_value := _shape_value self;
           loc_at := loc_at self; _loc_value := _loc_value self;
           scale_at := scale_at self; _scale_value := v2;
           shape_samples := shape_samples self;
           loc_samples := loc_samples self;
           scale_samples := s |})%result
  else Err (unknown_parameter p).

(** [value[k][index]] for one of the [_*_value] lists. *)
Definition value_at (value : list (option (list param))) (k index : nat) : result param :=
  (l <-r getitem value k ; subscript l index)%result.

(** [FitInspectionData.get_basic_fit] *)
Definition get_basic_fit (self : FitInspectionData) (p : string) (index : nat)
  : result BasicFit :=
  if String.eqb p "shape" then
    (a <-r value_at (_shape_value self) 0 index ;
     b <-r value_at (_shape_value self) 1 index ;
     c <-r value_at (_shape_value self) 2 index ;
     s <-r subscript (shape_samples self) index ;
     Ok (mkBasicFit a b c s))%result
  else if String.eqb p "loc" then
    (a <-r value_at (_loc_value self) 0 index ;
     b <-r value_at (_loc_value self) 1 index ;
     c <-r value_at (_loc_value self) 2 index ;
     s <-r subscript (loc_samples self) index ;
     Ok (mkBasicFit a b c s))%result
  else if String.eqb p "scale" then
    (a <-r value_at (_scale_value self) 0 index ;
     b <-r value_at (_scale_value self) 1 index ;
     c <-r value_at (_scale_value self) 2 index ;
     s <-r subscript (scale_samples self) index ;
     Ok (mkBasicFit a b c s))%result
  else Err (unknown_parameter p).

(** The properties [shape_value], [loc_value] and [scale_value]. *)
Definition shape_value (self : FitInspectionData) : result (option (list param)) :=
  getitem (_shape_value self) 0.

Definition loc_value (self : FitInspectionData) : result (option (list param)) :=
  getitem (_loc_value self) 1.

Definition scale_value (self : FitInspectionData) : result (option (list param)) :=
  getitem (_scale_value self) 2.

(** ** The external estimators, warnings and the trace *)

(** The two dependency functions [_f1] (power) and [_f2] (exponential),
    as the objects handed to [curve_fit]. *)
Inductive dep_function := _f1 | _f2.

(** What the module takes from scipy, statsmodels and numpy:
    [sts.weibull_min.fit], [sts.norm.fit], [sts.lognorm.fit(_, floc=0)],
    [KDEUnivariate(_).fit(gridsize=2000)] followed by [(dens.cdf, dens.icdf)],
    [curve_fit(f, xdata, ydata, bounds=_bounds[, maxfev=_])] (its [popt]) and
    [np.log].  Each estimator either returns or raises. *)
Class Scipy := {
  weibull_min_fit : list float -> result (float * float * float);
  norm_fit : list float -> result (float * float);
  lognorm_fit : list float -> result (float * float * float);
  kde_fit : list float -> result (list float * list float);
  curve_fit : option dep_function -> list float -> list float -> option Z
              -> result (float * float * float);
  np_log : float -> float
}.

Inductive estimator := weibull_min | norm | lognorm | KDEUnivariate.

Inductive warning :=
| NoFittingDataForStep (step : float) (dim : option nat)
| TooFewDataPoints (n : nat) (step : float) (dim : option nat)
| OptimalParametersNotFound (param_name : string) (dimension : nat)
                            (function_name : option string).

Inductive event :=
| Fitted (by_ : estimator) (sample : list float)
| CurveFitted (f : option dep_function) (xdata ydata : list float) (maxfev : option Z)
| Warned (w : warning).

(** A computation: the events it produced, in order, and how it ended. *)
Definition M (A : Type) : Type := (list event * result A)%type.

Definition ret {A} (a : A) : M A := ([], Ok a).
Definition raise {A} (e : exn) : M A := ([], Err e).
Definition lift {A} (r : result A) : M A := ([], r).
Definition warn (w : warning) : M unit := ([Warned w], Ok tt).
Definition call {A} (ev : event) (r : result A) : M A := ([ev], r).

Definition bind {A B} (m : M A) (k : A -> M B) : M B :=
  match m with
  | (t, Ok a) => let (t', r) := k a in (t ++ t', r)
  | (t, Err e) => (t, Err e)
  end.

(** [try: body except cls: handler] *)
Definition try_except {A} (body : M A) (cls : exn_class) (handler : M A) : M A :=
  match body with
  | (t, Err e) =>
      if isinstance e cls then let (t', r) := handler in (t ++ t', r) else (t, Err e)
  | done => done
  end.

Declare Scope M_scope.
Delimit Scope M_scope with M.
Notation "x <- c ;; k" := (bind c (fun x => k))
  (at level 61, c at next level, right associativity) : M_scope.
Notation "' pat <- c ;; k" := (bind c (fun x => match x with pat => k end))
  (at level 61, pat pattern, c at next level, right associativity) : M_scope.
Notation "c ;; k" := (bind c (fun _ => k))
  (at level 61, right associativity) : M_scope.

(** [for x in l: s = body(s, x)] *)
Fixpoint for_each {A S} (l : list A) (body : S -> A -> M S) (s : S) : M S :=
  match l with
  | [] => ret s
  | x :: t => bind (body s x) (for_each t body)
  end.

(** [range(a, b)] and [enumerate(l)] *)
Definition range (a b : nat) : list nat := seq a (b - a).
Definition enumerate {A} (l : list A) : list (nat * A) := combine (seq 0 (List.length l)) l.

(** ** numpy and builtins used by the partition *)

(** The double nearest to an integer ([float(n)]; exact below [2 ^ 53]). *)
Definition Z2F (z : Z) : float := SF2Prim (binary_normalize prec emax z 0 false).

(** The rational number a finite double stands for; [None] for an infinity
    and for NaN. *)
Definition exact (x : float) : option Q :=
  match Prim2SF x with
  | S754_zero _ => Some 0%Q
  | S754_finite s m e => Some (inject_Z (if s then Z.neg m else Z.pos m) * Qpower 2 e)%Q
  | S754_infinity _ => None
  | S754_nan => None
  end.

(** [x != x] *)
Definition is_nan (x : float) : bool := negb (x =? x)%float.

(** [max(l)]: the running maximum is replaced by an item that compares
    greater, so the first greatest element is returned and a NaN is kept
    only in first position. *)
Definition py_max (l : list float) : result float :=
  match l with
  | [] => Err (Raise ValueError "max() arg is an empty sequence")
  | x :: t => Ok (fold_left (fun m y => if (m <? y)%float then y else m) t x)
  end.

(** [np.linspace(0, stop, num=num, endpoint=False, retstep=True)]: the
    samples [arange(0, num) * step + start] with [step = (stop - start) /
    num], or [arange(0, num) / num * (stop - start) + start] when that step
    is zero; without samples the step is NaN. *)
Definition linspace (stop : float) (num : Z) : result (list float * float) :=
  if (num <? 0)%Z then Err (Raise ValueError "Number of samples must be non-negative.")
  else
    let div := Z2F num in
    let start := (0 * 1)%float in
    let stop := (stop * 1)%float in
    let delta := (stop - start)%float in
    let y := map (fun i => Z2F (Z.of_nat i)) (seq 0 (Z.to_nat num)) in
    if (0 <? num)%Z then
      let step := (delta / div)%float in
      let y := if (step =? 0)%float
               then map (fun v => (v / div * delta)%float) y
               else map (fun v => (v * step)%float) y in
      Ok (map (fun v => (v + start)%float) y, step)
    else Ok (map (fun v => (v * delta + start)%float) y, nan).

(** The length [np.arange(start, stop, step)] computes: the ceiling of the
    double [(stop - start) / step]; one element (none for a negative
    quotient) when a quotient of a non-zero difference underflows to zero. *)
Definition arange_length (start stop step : float) : result nat :=
  if (step =? 0)%float then Err (Raise ZeroDivisionError "float division by zero")
  else
    let next := (stop - start)%float in
    let val := (next / step)%float in
    if negb (next =? 0)%float && (val =? 0)%float then
      Ok (if (1 / val <? 0)%float then 0 else 1)
    else
      match exact val with
      | Some q =>
          if ((- 2 ^ 63 <=? Qceiling q) && (Qceiling q <=? 2 ^ 63))%Z
          then Ok (Z.to_nat (Qceiling q))
          else Err (Raise OverflowError "arange: overflow while computing length")
      | None =>
          if is_nan val then Err (Raise ValueError "arange: cannot compute length")
          else Err (Raise OverflowError "arange: overflow while computing length")
      end.

(** [np.arange(start, stop, step)]: [start], [start + step], and from the
    third element on [start + i * delta] with [delta = (start + step) -
    start]. *)
Definition arange (start stop step : float) : result (list float) :=
  (n <-r arange_length start stop step ;
   let next := (start + step)%float in
   let delta := (next - start)%float in
   Ok (map (fun i =>
              match i with
              | 0 => start
              | 1 => next
              | _ => (start + Z2F (Z.of_nat i) * delta)%float
              end)
           (seq 0 n)))%result.

(** [np.delete(arr, i)] *)
Definition np_delete (arr : list float) (i : nat) : result (list float) :=
  if i <? List.length arr then Ok (firstn i arr ++ skipn (S i) arr)
  else Err (Raise IndexError
              ("index " ++ str i ++ " is out of bounds for axis 0 with size "
               ++ str (List.length arr))%string).

(** [np.stack((sample, column)).T]: the rows [(sample[k], column[k])]. *)
Definition stack_T (sample column : list float) : result (list (float * float)) :=
  if List.length sample =? List.length column then Ok (combine sample column)
  else Err (Raise ValueError "all input arrays must have the same shape").

(** The order NumPy sorts doubles by: [a < b], and every number before
    NaN. *)
Definition np_lt (a b : float) : bool :=
  (a <? b)%float || (is_nan b && negb (is_nan a)).

(** [rows[np.argsort(rows[:, 1])]]: the rows in ascending order of their
    second column (rows with equal keys keep their order). *)
Fixpoint insert_row (r : float * float) (l : list (float * float)) : list (float * float) :=
  match l with
  | [] => [r]
  | h :: t => if np_lt (snd r) (snd h) then r :: h :: t else h :: insert_row r t
  end.

Definition sort_rows (rows : list (float * float)) : list (float * float) :=
  fold_left (fun acc r => insert_row r acc) rows [].

(** The mask of the partition loop, for one row:
    [(x >= step - 0.5 * interval_width) & (x < step + 0.5 * interval_width)]. *)
Definition mask (step interval_width x : float) : bool :=
  ((step - 0.5 * interval_width <=? x) && (x <? step + 0.5 * interval_width))%float.

(** [sorted_samples[mask, 0]] *)
Definition fitting_values_at (sorted_samples : list (float * float))
           (step interval_width : float) : list float :=
  map fst (filter (fun r => mask step interval_width (snd r)) sorted_samples).

Definition MIN_DATA_POINTS_FOR_FIT : nat := 10.

(** ** The static methods of [Fit] *)

(** The value of [_fit_distribution]: three [ConstantParam]s, or the pair
    [(dens.cdf, dens.icdf)] for the kernel density. *)
Inductive fit_result :=
| Params (shape loc scale : param)
| KdeFunctions (cdf icdf : list float).

(** [name[:-2]] *)
Definition drop_last_two (name : string) : string :=
  substring 0 (String.length name - 2) name.

Definition option_nat_eqb (a b : option nat) : bool :=
  match a, b with
  | Some x, Some y => x =? y
  | None, None => true
  | _, _ => false
  end.

(** [dependency[i] is not None and dependency[i] == dependency[index]],
    given the two entries. *)
Definition same_dependency (di dindex : option nat) : bool :=
  match di with
  | Some _ => option_nat_eqb di dindex
  | None => false
  end.

Record partition := mkPartition {
  interval_centers : list float;
  dist_values : list (list float);
  param_values : list (list param);
  multiple_basic_fit : list BasicFit
}.

(** ** Objects returned by the per-dimension fit *)

(** The values that travel in the third and fourth position of the tuple
    returned by [_get_distribution]. *)
#[warnings="-register-all"]
Inductive pyobj :=
| PyNone
| PyInt (n : nat)
| PyFloat (x : float)
| PyArray (a : list float)
| PyList (l : list pyobj)
| PyFitInspectionData (d : FitInspectionData).

(** [o[i]] *)
Definition py_getitem (o : pyobj) (i : nat) : result pyobj :=
  match o with
  | PyList l => getitem l i
  | PyArray a =>
      match nth_error a i with
      | Some x => Ok (PyFloat x)
      | None => Err (Raise IndexError "index out of bounds")
      end
  | PyNone => Err (Raise TypeError "'NoneType' object is not subscriptable")
  | PyFloat _ => Err (Raise TypeError "'float' object is not subscriptable")
  | PyInt _ => Err (Raise TypeError "'int' object is not subscriptable")
  | PyFitInspectionData _ =>
      Err (Raise TypeError "'FitInspectionData' object is not subscriptable")
  end.

(** [o.used_number_of_intervals] *)
Definition py_get_used_number_of_intervals (o : pyobj) : result (option nat) :=
  match o with
  | PyFitInspectionData d => Ok (used_number_of_intervals d)
  | PyList _ =>
      Err (Raise AttributeError "'list' object has no attribute 'used_number_of_intervals'")
  | PyArray _ =>
      Err (Raise AttributeError
             "'numpy.ndarray' object has no attribute 'used_number_of_intervals'")
  | PyInt _ =>
      Err (Raise AttributeError "'int' object has no attribute 'used_number_of_intervals'")
  | PyFloat _ =>
      Err (Raise AttributeError "'float' object has no attribute 'used_number_of_intervals'")
  | PyNone =>
      Err (Raise AttributeError
             "'NoneType' object has no attribute 'used_number_of_intervals'")
  end.

Definition set_used_number_of_intervals (d : FitInspectionData) (n : option nat)
  : FitInspectionData :=
  {| used_number_of_intervals := n;
     shape_at := shape_at d; _shape_value := _shape_value d;
     loc_at := loc_at d; _loc_value := _loc_value d;
     scale_at := scale_at d; _scale_value := _scale_value d;
     shape_samples := shape_samples d;
     loc_samples := loc_samples d;
     scale_samples := scale_samples d |}.

(** [o.used_number_of_intervals = n] *)
Definition py_set_used_number_of_intervals (o : pyobj) (n : nat) : result pyobj :=
  match o with
  | PyFitInspectionData d => Ok (PyFitInspectionData (set_used_number_of_intervals d (Some n)))
  | PyList _ =>
      Err (Raise AttributeError "'list' object has no attribute 'used_number_of_intervals'")
  | PyArray _ =>
      Err (Raise AttributeError
             "'numpy.ndarray' object has no attribute 'used_number_of_intervals'")
  | PyInt _ =>
      Err (Raise AttributeError "'int' object has no attribute 'used_number_of_intervals'")
  | PyFloat _ =>
      Err (Raise AttributeError "'float' object has no attribute 'used_number_of_intervals'")
  | PyNone =>
      Err (Raise AttributeError
             "'NoneType' object has no attribute 'used_number_of_intervals'")
  end.

(** The distribution objects ([distributions.py]), kept as the constructor
    calls that build them; [LognormalDistribution_sigma_mu] is the call
    [LognormalDistribution(sigma=_, mu=_)]. *)
Inductive distribution :=
| WeibullDistribution (args : list (option param))
| LognormalDistribution (args : list (option param))
| LognormalDistribution_sigma_mu (sigma mu : option param)
| NormalDistribution (args : list (option param))
| KernelDensityDistribution (params : fit_result).

Record MultivariateDistribution := mkMultivariateDistribution {
  distributions : list (option distribution);
  dependencies : list (list (option nat))
}.

(** What the module takes from [viroconcom/distributions.py], whose source
    is not at hand: whether the constructor calls at the end of
    [_get_distribution] and of [Fit.__init__] accept their arguments.  Each
    call either returns the object ([None]) or raises the exception given. *)
Class Distributions := {
  distribution_init : distribution -> option exn;
  MultivariateDistribution_init :
    list (option distribution) -> list (list (option nat)) -> option exn
}.

(** A distribution description: the keys the module reads from or writes to
    the dictionary, each absent ([None]) or present. *)
Record dist_description := mkDescription {
  key_name : option string;
  key_dependency : option (list (option nat));
  key_functions : option (list (option string));
  key_number_of_intervals : option Z;
  key_width_of_intervals : option float;
  key_list_number_of_intervals : option (list (option Z));
  key_list_width_of_intervals : option (list (option float));
  key_used_number_of_intervals : option pyobj
}.

(** [d.get(key, default)] *)
Definition get {A} (v : option A) (default : A) : A :=
  match v with
  | Some a => a
  | None => default
  end.

(** The local variables of [_get_distribution] that its loops update;
    [l_fitting] is [None] while [interval_centers], [dist_values],
    [param_values] and [multiple_basic_fit] are not yet bound. *)
Record locals := mkLocals {
  l_params : list (option param);
  l_used_number_of_intervals : list (option nat);
  l_fit_inspection_data : FitInspectionData;
  l_fitting : option partition
}.

Record Fit := mkFit {
  dist_descriptions : list dist_description;
  multiple_fit_inspection_data : list pyobj;
  mul_var_dist : MultivariateDistribution
}.

Section Fitting.

Context `{Scipy} `{Distributions}.

(** [Fit._fit_distribution] *)
Definition _fit_distribution (sample : list float) (name : string) : M fit_result :=
  (if String.eqb name "Weibull" then
     '(c, l, s) <- call (Fitted weibull_min sample) (weibull_min_fit sample) ;;
     ret (Params (ConstantParam c) (ConstantParam l) (ConstantParam s))
   else if String.eqb name "Normal" then
     '(l, s) <- call (Fitted norm sample) (norm_fit sample) ;;
     ret (Params (ConstantParam 0) (ConstantParam l) (ConstantParam s))
   else if String.eqb (drop_last_two name) "Lognormal" then
     '(c, l, s) <- call (Fitted lognorm sample) (lognorm_fit sample) ;;
     ret (Params (ConstantParam c) (ConstantParam l) (ConstantParam s))
   else if String.eqb name "KernelDensity" then
     '(cdf, icdf) <- call (Fitted KDEUnivariate sample) (kde_fit sample) ;;
     ret (KdeFunctions cdf icdf)
   else
     raise (Raise UnboundLocalError "local variable 'params' referenced before assignment"))%M.

(** [Fit._get_function] *)
Definition _get_function (function_name : option string) : result (option dep_function) :=
  match function_name with
  | Some n =>
      if String.eqb n "f1" then Ok (Some _f1)
      else if String.eqb n "f2" then Ok (Some _f2)
      else Err (Raise ValueError ("Function '" ++ n ++ "' is unknown.")%string)
  | None => Ok None
  end.

(** [BasicFit] applied to the unpacked [current_params] and [samples] *)
Definition BasicFit_of (current_params : fit_result) (samples : list float) : result BasicFit :=
  match current_params with
  | Params a b c => Ok (mkBasicFit a b c samples)
  | KdeFunctions _ _ =>
      Err (Raise TypeError "__init__() missing 1 required positional argument: 'samples'")
  end.

(** [current_params[i]] *)
Definition current_param (current_params : fit_result) (i : nat) : result param :=
  match current_params, i with
  | Params a _ _, 0 => Ok a
  | Params _ b _, 1 => Ok b
  | Params _ _ c, 2 => Ok c
  | _, _ => Err (Raise IndexError "tuple index out of range")
  end.

(** Modelled from the spec: [params.py] is not among the sources.  [p(x)]
    for a [ConstantParam] is its value, whatever [x] is ("x ignored for
    constants"); a [FunctionParam] needs [_f1] or [_f2], which are not
    evaluated here. *)
Definition param_value (p : param) : result float :=
  match p with
  | ConstantParam v => Ok v
  | FunctionParam _ _ _ _ => Err (Raise TypeError "FunctionParam is not evaluated")
  end.

(** [Fit._append_params]; returns the updated [param_values] with the
    [BasicFit]. *)
Definition _append_params (name : string) (param_values : list (list param))
           (dependency : list (option nat)) (index : nat) (fitting_values : list float)
  : M (list (list param) * BasicFit) :=
  (current_params <- _fit_distribution fitting_values name ;;
   basic_fit <- lift (BasicFit_of current_params fitting_values) ;;
   param_values' <-
     for_each (range index (List.length dependency))
       (fun pv i =>
          di <- lift (getitem dependency i) ;;
          dindex <- lift (getitem dependency index) ;;
          if same_dependency di dindex then
            l <- lift (getitem pv i) ;;
            c <- lift (current_param current_params i) ;;
            lift (setitem pv i (l ++ [c]))
          else ret pv)
       param_values ;;
   ret (param_values', basic_fit))%M.

(** [samples[dependency[index]]] *)
Definition dependent_column (samples : list (list float)) (dependency : list (option nat))
           (index : nat) : result (list float) :=
  (d <-r getitem dependency index ;
   match d with
   | Some k => getitem samples k
   | None => Err (Raise TypeError "list indices must be integers or slices, not NoneType")
   end)%result.

Definition too_few_intervals (n : nat) : exn :=
  Raise RuntimeError
    ("Your settings resulted in " ++ str n ++ " intervals. However, "
     ++ "at least 3 intervals are required. Consider changing the interval width setting.")%string.

Definition intervals_not_specified : exn :=
  Raise RuntimeError
    ("Either the parameters number_of_intervals or bin_width has to be specified, otherwise the intervals"
     ++ " are not specified. Exiting.")%string.

(** The body of the loop over [enumerate(interval_centers)] in
    [_get_fitting_values]; [st] holds the current bindings of
    [interval_centers], [dist_values], [param_values] and
    [multiple_basic_fit]. *)
Definition partition_step (sorted_samples : list (float * float)) (interval_width : float)
           (name : string) (dependency : list (option nat)) (index : nat)
           (st : partition) (i_step : nat * float) : M partition :=
  (let '(i, step) := i_step in
   let fitting_values := fitting_values_at sorted_samples step interval_width in
   if MIN_DATA_POINTS_FOR_FIT <=? List.length fitting_values then
     try_except
       ('(pv, basic_fit) <-
           _append_params name (param_values st) dependency index fitting_values ;;
        ret {| interval_centers := interval_centers st;
               dist_values := dist_values st ++ [fitting_values];
               param_values := pv;
               multiple_basic_fit := multiple_basic_fit st ++ [basic_fit] |})
       ValueError
       (centers <- lift (np_delete (interval_centers st) i) ;;
        d <- lift (getitem dependency index) ;;
        warn (NoFittingDataForStep step d) ;;
        ret {| interval_centers := centers;
               dist_values := dist_values st;
               param_values := param_values st;
               multiple_basic_fit := multiple_basic_fit st |})
   else
     centers <- lift (np_delete (interval_centers st) i) ;;
     d <- lift (getitem dependency index) ;;
     warn (TooFewDataPoints (List.length fitting_values) step d) ;;
     ret {| interval_centers := centers;
            dist_values := dist_values st;
            param_values := param_values st;
            multiple_basic_fit := multiple_basic_fit st |})%M.

(** The interval centers and the interval width computed at the start of
    [_get_fitting_values]. *)
Definition compute_intervals (samples : list (list float)) (dependency : list (option nat))
           (index : nat) (number_of_intervals : option Z) (bin_width : option float)
  : result (list float * float) :=
  (if match number_of_intervals with Some n => negb (n =? 0)%Z | None => false end then
     column <-r dependent_column samples dependency index ;
     stop <-r py_max column ;
     cw <-r linspace stop (match number_of_intervals with Some n => n | None => 0%Z end) ;
     let '(centers, interval_width) := cw in
     Ok (map (fun c => (c + 0.5 * interval_width)%float) centers, interval_width)
   else
     match bin_width with
     | Some w =>
         if negb (w =? 0)%float then
           column <-r dependent_column samples dependency index ;
           stop <-r py_max column ;
           centers <-r arange (0.5 * w) stop w ;
           Ok (centers, w)
         else Err intervals_not_specified
     | None => Err intervals_not_specified
     end)%result.

(** [Fit._get_fitting_values] *)
Definition _get_fitting_values (sample : list float) (samples : list (list float))
           (name : string) (dependency : list (option nat)) (index : nat)
           (number_of_intervals : option Z) (bin_width : option float) : M partition :=
  ('(centers, interval_width) <-
      lift (compute_intervals samples dependency index number_of_intervals bin_width) ;;
   column <- lift (dependent_column samples dependency index) ;;
   rows <- lift (stack_T sample column) ;;
   let sorted_samples := sort_rows rows in
   st <- for_each (enumerate centers)
           (partition_step sorted_samples interval_width name dependency index)
           {| interval_centers := centers;
              dist_values := [];
              param_values := [[]; []; []];
              multiple_basic_fit := [] |} ;;
   if List.length (interval_centers st) <? 3 then
     raise (too_few_intervals (List.length (interval_centers st)))
   else ret st)%M.

(** ** [Fit._get_distribution] *)

(** The [if i == 0: ... elif i == 1: ... elif i == 2: ...] around
    [append_basic_fit]. *)
Definition append_for (fit_inspection_data : FitInspectionData) (i : nat)
           (basic_fit : BasicFit) : result FitInspectionData :=
  if i =? 0 then append_basic_fit fit_inspection_data "shape" basic_fit
  else if i =? 1 then append_basic_fit fit_inspection_data "loc" basic_fit
  else if i =? 2 then append_basic_fit fit_inspection_data "scale" basic_fit
  else Ok fit_inspection_data.

(** Body of the inner loop of the branch [dependency[index] is None]. *)
Definition independent_fill (name : string) (dependency : list (option nat))
           (current_params : fit_result) (basic_fit : BasicFit)
           (st : locals) (i : nat) : M locals :=
  (di <- lift (getitem dependency i) ;;
   match di with
   | None =>
       fid <- lift (append_for (l_fit_inspection_data st) i basic_fit) ;;
       p <- (if (i =? 2) && String.eqb name "Lognormal_2" then
               c <- lift (current_param current_params i) ;;
               v <- lift (param_value c) ;;
               ret (ConstantParam (np_log v))
             else lift (current_param current_params i)) ;;
       ps <- lift (setitem (l_params st) i (Some p)) ;;
       ret {| l_params := ps;
              l_used_number_of_intervals := l_used_number_of_intervals st;
              l_fit_inspection_data := fid;
              l_fitting := l_fitting st |}
   | Some _ => ret st
   end)%M.

(** The [param_name] chosen in the handler of the first [curve_fit]. *)
Definition param_name_of (name : string) (i : nat) : result string :=
  if (i =? 0) && String.eqb name "Lognormal_2" then Ok "sigma"
  else if (i =? 2) && String.eqb name "Lognormal_2" then Ok "mu"
  else if i =? 0 then Ok "shape"
  else if i =? 1 then Ok "loc"
  else if i =? 2 then Ok "scale"
  else Err (Raise UnboundLocalError "local variable 'param_name' referenced before assignment").

Definition cannot_fit_curve (param_name : string) (dimension : nat) : exn :=
  Raise RuntimeError
    ("Can't fit curve for parameter '" ++ param_name ++ "' in dimension '"
     ++ str dimension ++ "'. " ++ "Number of iterations exceeded.")%string.

(** [int(1e6)] *)
Definition maxfev_retry : Z := 1000000.

(** The [try: curve_fit ... except RuntimeError: ...] statement; its value is
    [param_popt]. *)
Definition fit_curve (name : string) (dimension i : nat) (function_name : option string)
           (interval_centers fit_points : list float) : M (float * float * float) :=
  try_except
    (f <- lift (_get_function function_name) ;;
     call (CurveFitted f interval_centers fit_points None)
          (curve_fit f interval_centers fit_points None))%M
    RuntimeError
    (param_name <- lift (param_name_of name i) ;;
     warn (OptimalParametersNotFound param_name dimension function_name) ;;
     try_except
       (f <- lift (_get_function function_name) ;;
        call (CurveFitted f interval_centers fit_points (Some maxfev_retry))
             (curve_fit f interval_centers fit_points (Some maxfev_retry)))
       RuntimeError
       (raise (cannot_fit_curve param_name dimension)))%M.

(** [[g(p(None)) for p in l]] *)
Fixpoint values_of (g : float -> float) (l : list param) : result (list float) :=
  match l with
  | [] => Ok []
  | p :: t =>
      (v <-r param_value p ;
       vs <-r values_of g t ;
       Ok (g v :: vs))%result
  end.

(** [fit_points] of the dependent branch. *)
Definition fit_points_of (name : string) (i : nat) (values : list param)
  : result (list float) :=
  if (i =? 2) && String.eqb name "Lognormal_2" then values_of np_log values
  else values_of (fun v => v) values.

(** Body of the inner loop of the branch with a dependency. *)
Definition dependent_fill (name : string) (dimension : nat) (dependency : list (option nat))
           (functions : list (option string)) (index : nat)
           (st : locals) (i : nat) : M locals :=
  (di <- lift (getitem dependency i) ;;
   dindex <- lift (getitem dependency index) ;;
   if same_dependency di dindex then
     fitting <- match l_fitting st with
                | Some f => ret f
                | None =>
                    raise (Raise UnboundLocalError
                             "local variable 'multiple_basic_fit' referenced before assignment")
                end ;;
     fid <- for_each (multiple_basic_fit fitting)
              (fun fid basic_fit => lift (append_for fid i basic_fit))
              (l_fit_inspection_data st) ;;
     used <- lift (setitem (l_used_number_of_intervals st) i
                           (Some (List.length (interval_centers fitting)))) ;;
     values <- lift (getitem (param_values fitting) i) ;;
     fit_points <- lift (fit_points_of name i values) ;;
     function_name <- lift (getitem functions i) ;;
     '(a, b, c) <- fit_curve name dimension i function_name
                             (interval_centers fitting) fit_points ;;
     ps <- lift (setitem (l_params st) i (Some (FunctionParam a b c function_name))) ;;
     ret {| l_params := ps;
            l_used_number_of_intervals := used;
            l_fit_inspection_data := fid;
            l_fitting := l_fitting st |}
   else ret st)%M.

Definition with_fitting (st : locals) (f : partition) : locals :=
  {| l_params := l_params st;
     l_used_number_of_intervals := l_used_number_of_intervals st;
     l_fit_inspection_data := l_fit_inspection_data st;
     l_fitting := Some f |}.

Definition truthy_int (n : option Z) : bool :=
  match n with
  | Some z => negb (z =? 0)%Z
  | None => false
  end.

Definition truthy_float (w : option float) : bool :=
  match w with
  | Some w => negb (w =? 0)%float
  | None => false
  end.

(** Body of the loop [for index in range(len(dependency))]. *)
Definition slot_step (sample : list float) (samples : list (list float)) (name : string)
           (dimension : nat) (dependency : list (option nat))
           (functions : list (option string))
           (list_number_of_intervals : option (list (option Z)))
           (list_width_of_intervals : option (list (option float)))
           (st : locals) (index : nat) : M locals :=
  (p <- lift (getitem (l_params st) index) ;;
   match p with
   | Some _ => ret st
   | None =>
       d <- lift (getitem dependency index) ;;
       match d with
       | None =>
           current_params <- _fit_distribution sample name ;;
           basic_fit <- lift (BasicFit_of current_params sample) ;;
           for_each (range index (List.length functions))
                    (independent_fill name dependency current_params basic_fit) st
       | Some k =>
           n <- lift (subscript list_number_of_intervals k) ;;
           st' <- (if truthy_int n then
                     f <- _get_fitting_values sample samples name dependency index n None ;;
                     ret (with_fitting st f)
                   else
                     w <- lift (subscript list_width_of_intervals k) ;;
                     if truthy_float w then
                       f <- _get_fitting_values sample samples name dependency index None w ;;
                       ret (with_fitting st f)
                     else ret st) ;;
           for_each (range index (List.length functions))
                    (dependent_fill name dimension dependency functions index) st'
       end
   end)%M.

Definition no_dependency : list (option nat) := [None; None; None].

Fixpoint dependency_eqb (a b : list (option nat)) : bool :=
  match a, b with
  | [], [] => true
  | x :: a', y :: b' => option_nat_eqb x y && dependency_eqb a' b'
  | _, _ => false
  end.

Definition kernel_density_conditional : exn :=
  Raise NotImplementedError "KernelDensity can not be conditional.".

(** A constructor call of [distributions.py]: the object, or the exception
    of the constructor. *)
Definition construct (d : distribution) : result (option distribution) :=
  match distribution_init d with
  | Some e => Err e
  | None => Ok (Some d)
  end.

(** The [distribution] built at the end of [_get_distribution]. *)
Definition make_distribution (name : string) (params : list (option param))
  : result (option distribution) :=
  if String.eqb name "Weibull" then construct (WeibullDistribution params)
  else if String.eqb name "Lognormal_2" then
    (sigma <-r getitem params 0 ;
     mu <-r getitem params 2 ;
     construct (LognormalDistribution_sigma_mu sigma mu))%result
  else if String.eqb name "Lognormal_1" then construct (LognormalDistribution params)
  else if String.eqb name "Normal" then construct (NormalDistribution params)
  else Ok None.

Definition py_of_used (u : option nat) : pyobj :=
  match u with
  | Some n => PyInt n
  | None => PyNone
  end.

(** [Fit._get_distribution(dimension, samples, **kwargs)]; the value is the
    returned 4-tuple. *)
Definition _get_distribution (dimension : nat) (samples : list (list float))
           (kwargs : dist_description)
  : M (option distribution * list (option nat) * pyobj * pyobj) :=
  (sample <- lift (getitem samples dimension) ;;
   let name := get (key_name kwargs) "Weibull" in
   let dependency := get (key_dependency kwargs) no_dependency in
   let functions :=
     get (key_functions kwargs) [Some "polynomial"; Some "polynomial"; Some "polynomial"] in
   let list_number_of_intervals := key_list_number_of_intervals kwargs in
   let list_width_of_intervals := key_list_width_of_intervals kwargs in
   let fit_inspection_data := FitInspectionData_init in
   if String.eqb name "KernelDensity" then
     if negb (dependency_eqb dependency no_dependency) then raise kernel_density_conditional
     else
       functions_pair <- _fit_distribution sample name ;;
       ret (Some (KernelDensityDistribution functions_pair), dependency,
            PyList [PyList [PyArray sample]; PyList [PyArray sample]; PyList [PyArray sample]],
            PyList [PyNone; PyNone; PyNone])
   else
     st <- for_each (range 0 (List.length dependency))
             (slot_step sample samples name dimension dependency functions
                        list_number_of_intervals list_width_of_intervals)
             {| l_params := [None; None; None];
                l_used_number_of_intervals := [None; None; None];
                l_fit_inspection_data := fit_inspection_data;
                l_fitting := None |} ;;
     distribution <- lift (make_distribution name (l_params st)) ;;
     ret (distribution, dependency,
          PyList (map py_of_used (l_used_number_of_intervals st)),
          PyFitInspectionData (l_fit_inspection_data st)))%M.

(** ** [Fit.__init__] *)

(** The first two loops: every description receives the lists of all
    [number_of_intervals] and [width_of_intervals] settings. *)
Definition broadcast_intervals (dist_descriptions : list dist_description)
  : list dist_description :=
  let list_number_of_intervals := map key_number_of_intervals dist_descriptions in
  let list_width_of_intervals := map key_width_of_intervals dist_descriptions in
  map (fun d =>
         {| key_name := key_name d;
            key_dependency := key_dependency d;
            key_functions := key_functions d;
            key_number_of_intervals := key_number_of_intervals d;
            key_width_of_intervals := key_width_of_intervals d;
            key_list_number_of_intervals := Some list_number_of_intervals;
            key_list_width_of_intervals := Some list_width_of_intervals;
            key_used_number_of_intervals := key_used_number_of_intervals d |})
      dist_descriptions.

(** [dist_descriptions[dep]['used_number_of_intervals'] = v] *)
Definition set_key_used (dist_descriptions : list dist_description) (dep : nat) (v : pyobj)
  : result (list dist_description) :=
  (d <-r getitem dist_descriptions dep ;
   setitem dist_descriptions dep
     {| key_name := key_name d;
        key_dependency := key_dependency d;
        key_functions := key_functions d;
        key_number_of_intervals := key_number_of_intervals d;
        key_width_of_intervals := key_width_of_intervals d;
        key_list_number_of_intervals := key_list_number_of_intervals d;
        key_list_width_of_intervals := key_list_width_of_intervals d;
        key_used_number_of_intervals := Some v |})%result.

(** What [pool.apply_async(self._get_distribution, (dimension, samples),
    dist_description)] leaves for [res.get]: the value or the exception of
    the worker.  Warnings stay in the worker process. *)
Definition async_result : Type :=
  result (option distribution * list (option nat) * pyobj * pyobj).

(** The loop that distributes the work: one task per dimension. *)
Fixpoint apply_async_all (samples : list (list float))
         (dist_descriptions : list dist_description) (dimensions : list nat)
  : result (list async_result) :=
  match dimensions with
  | [] => Ok []
  | dimension :: rest =>
      (dist_description <-r getitem dist_descriptions dimension ;
       others <-r apply_async_all samples dist_descriptions rest ;
       Ok (snd (_get_distribution dimension samples dist_description) :: others))%result
  end.

(** The state of the loop [for i, res in enumerate(multiple_results)]. *)
Record collected := mkCollected {
  c_distributions : list (option distribution);
  c_dependencies : list (list (option nat));
  c_multiple_fit_inspection_data : list pyobj;
  c_dist_descriptions : list dist_description
}.

(** The loop [for dep_index, dep in enumerate(dependency)]. *)
Fixpoint save_used (dist_descriptions : list dist_description)
         (used_number_of_intervals : pyobj) (deps : list (nat * option nat))
  : result (list dist_description) :=
  match deps with
  | [] => Ok dist_descriptions
  | (dep_index, Some dep) :: rest =>
      (v <-r py_getitem used_number_of_intervals dep_index ;
       ds <-r set_key_used dist_descriptions dep v ;
       save_used ds used_number_of_intervals rest)%result
  | (_, None) :: rest => save_used dist_descriptions used_number_of_intervals rest
  end.

(** Body of the loop [for i, res in enumerate(multiple_results)]: the tuple
    of the worker is unpacked as [distribution, dependency,
    fit_inspection_data, used_number_of_intervals]. *)
Definition collect_step (st : collected) (res : async_result) : result collected :=
  (r <-r res ;
   let '(distribution, dependency, fit_inspection_data, used_number_of_intervals) := r in
   ds <-r save_used (c_dist_descriptions st) used_number_of_intervals (enumerate dependency) ;
   Ok {| c_distributions := c_distributions st ++ [distribution];
         c_dependencies := c_dependencies st ++ [dependency];
         c_multiple_fit_inspection_data :=
           c_multiple_fit_inspection_data st ++ [fit_inspection_data];
         c_dist_descriptions := ds |})%result.

Fixpoint collect (st : collected) (multiple_results : list async_result) : result collected :=
  match multiple_results with
  | [] => Ok st
  | res :: rest => (st' <-r collect_step st res ; collect st' rest)%result
  end.

(** [not n] for [None] or an int. *)
Definition falsy (n : option nat) : bool :=
  match n with
  | Some (S _) => false
  | _ => true
  end.

(** The loop that sets [used_number_of_intervals] to 1 where it is unset. *)
Fixpoint default_used (multiple_fit_inspection_data : list pyobj) : result (list pyobj) :=
  match multiple_fit_inspection_data with
  | [] => Ok []
  | fit_inspection_data :: rest =>
      (u <-r py_get_used_number_of_intervals fit_inspection_data ;
       o <-r (if falsy u then py_set_used_number_of_intervals fit_inspection_data 1
              else Ok fit_inspection_data) ;
       os <-r default_used rest ;
       Ok (o :: os))%result
  end.

(** [Fit.__init__(samples, dist_descriptions)] *)
Definition Fit_init (samples : list (list float)) (dist_descriptions : list dist_description)
  : result Fit :=
  (let dist_descriptions := broadcast_intervals dist_descriptions in
   multiple_results <-r
     apply_async_all samples dist_descriptions (range 0 (List.length samples)) ;
   st <-r collect {| c_distributions := [];
                     c_dependencies := [];
                     c_multiple_fit_inspection_data := [];
                     c_dist_descriptions := dist_descriptions |}
                  multiple_results ;
   inspection <-r default_used (c_multiple_fit_inspection_data st) ;
   match MultivariateDistribution_init (c_distributions st) (c_dependencies st) with
   | Some e => Err e
   | None =>
       Ok {| dist_descriptions := c_dist_descriptions st;
             multiple_fit_inspection_data := inspection;
             mul_var_dist :=
               mkMultivariateDistribution (c_distributions st) (c_dependencies st) |}
   end)%result.

End Fitting.

(** ** Counting intervals *)

(** The number of candidate intervals that hold fewer than
    [MIN_DATA_POINTS_FOR_FIT] samples. *)
Definition underpopulated (sorted_samples : list (float * float)) (interval_width : float)
           (candidates : list float) : nat :=
  List.length
    (filter (fun step =>
               List.length (fitting_values_at sorted_samples step interval_width)
               <? MIN_DATA_POINTS_FOR_FIT)
            candidates).

(** A trace without the warning of the [except ValueError] handler: no
    per-interval marginal fit failed. *)
Definition is_fit_failure (ev : event) : bool :=
  match ev with
  | Warned (NoFittingDataForStep _ _) => true
  | _ => false
  end.

Definition no_fit_failure (t : list event) : bool :=
  forallb (fun ev => negb (is_fit_failure ev)) t.

(** [ceil(stop / W)] over the real numbers the two doubles stand for; 0
    when one of them is not finite. *)
Definition real_ceil_div (stop W : float) : Z :=
  match exact stop, exact W with
  | Some s, Some w => Qceiling (s / w)
  | _, _ => 0%Z
  end.

(** The number of interval centers for a fixed width [W] in the words of the
    specification: [ceil(max(covariate) / W)] minus the number of candidate
    intervals with fewer than 10 samples. *)
Definition specified_center_count (sorted_samples : list (float * float)) (W stop : float)
           (candidates : list float) : Z :=
  (real_ceil_div stop W - Z.of_nat (underpopulated sorted_samples W candidates))%Z.

(** The intervals [[k * W, (k + 1) * W)] for [k < ceil(stop / W)], by their
    centers. *)
Definition covering_centers (W stop : float) : list float :=
  map (fun k => (0.5 * W + Z2F (Z.of_nat k) * W)%float)
      (seq 0 (Z.to_nat (real_ceil_div stop W))).

(** The interval of the specification, [c - w / 2 <= x < c + w / 2], over
    the real numbers the three doubles stand for. *)
Definition in_real_interval (c w x : float) : bool :=
  match exact c, exact w, exact x with
  | Some c, Some w, Some x =>
      Qle_bool (c - w / 2) x && negb (Qle_bool (c + w / 2) x)
  | _, _, _ => false
  end.

(** Forty samples: ten with covariate 0.5, ten with 1.5, ten with 2.5 and
    ten with 3.3. *)
Definition covariate_40 : list float :=
  repeat 0.5%float 10 ++ repeat 1.5%float 10 ++ repeat 2.5%float 10 ++ repeat 3.3%float 10.

Definition sample_40 : list float :=
  map (fun k => Z2F (Z.of_nat k)) (seq 1 40).

(** Forty-five samples: five with covariate 0.5 and ten each with 1.5, 2.5,
    3.5 and 4.2. *)
Definition covariate_45 : list float :=
  repeat 0.5%float 5 ++ repeat 1.5%float 10 ++ repeat 2.5%float 10 ++ repeat 3.5%float 10
  ++ repeat 4.2%float 10.

Definition sample_45 : list float :=
  map (fun k => Z2F (Z.of_nat k)) (seq 1 45).

(** Twenty-one samples: ten with covariate 0.5, ten with 1.5 and one with
    3.7. *)
Definition covariate_21 : list float :=
  repeat 0.5%float 10 ++ repeat 1.5%float 10 ++ [3.7%float].

Definition sample_21 : list float :=
  map (fun k => Z2F (Z.of_nat k)) (seq 1 21).

(** Fifty samples: ten each with covariate 0.03, 0.09, 0.15, 0.21 and
    0.3. *)
Definition covariate_50 : list float :=
  repeat 0.03%float 10 ++ repeat 0.09%float 10 ++ repeat 0.15%float 10
  ++ repeat 0.21%float 10 ++ repeat 0.3%float 10.

Definition sample_50 : list float :=
  map (fun k => Z2F (Z.of_nat k)) (seq 1 50).

(** Thirty samples: ten each with covariate 0.11, 0.33 and 0.55. *)
Definition covariate_30 : list float :=
  repeat 0.11%float 10 ++ repeat 0.33%float 10 ++ repeat 0.55%float 10.

Definition sample_30 : list float :=
  map (fun k => Z2F (Z.of_nat k)) (seq 1 30).

(** ** Concrete estimators and inputs *)

(** One possible behaviour of the estimators: every marginal fit returns,
    and [curve_fit] converges only with the raised [maxfev]. *)
Definition converging_on_retry : Scipy :=
  {| weibull_min_fit := fun _ => Ok (1.5, 0, 3)%float;
     norm_fit := fun _ => Ok (10, 1)%float;
     lognorm_fit := fun _ => Ok (0.2, 0, 7)%float;
     kde_fit := fun sample => Ok (sample, sample);
     curve_fit := fun _ _ _ maxfev =>
                    match maxfev with
                    | None => Err (Raise RuntimeError "Optimal parameters not found.")
                    | Some _ => Ok (0.1, 1.5, 0.2)%float
                    end;
     np_log := fun x => (x - 1)%float |}.

(** A behaviour in which [curve_fit] never converges. *)
Definition never_converging : Scipy :=
  {| weibull_min_fit := fun _ => Ok (1.5, 0, 3)%float;
     norm_fit := fun _ => Ok (10, 1)%float;
     lognorm_fit := fun _ => Ok (0.2, 0, 7)%float;
     kde_fit := fun sample => Ok (sample, sample);
     curve_fit := fun _ _ _ _ => Err (Raise RuntimeError "Optimal parameters not found.");
     np_log := fun x => (x - 1)%float |}.

(** [{'name': name, 'dependency': dependency}] *)
Definition description (name : string) (dependency : list (option nat)) : dist_description :=
  {| key_name := Some name;
     key_dependency := Some dependency;
     key_functions := None;
     key_number_of_intervals := None;
     key_width_of_intervals := None;
     key_list_number_of_intervals := None;
     key_list_width_of_intervals := None;
     key_used_number_of_intervals := None |}.

(** A [BasicFit] with the given scale and samples. *)
Definition interval_fit (scale_estimate : float) (fitted : list float) : BasicFit :=
  mkBasicFit (ConstantParam 0.2) (ConstantParam 0) (ConstantParam scale_estimate) fitted.

(** ** The attributes of one parameter *)

(** The attribute [_<p>_value] and the attribute [<p>_samples] that
    [append_basic_fit] and [get_basic_fit] address for the parameter name
    [p], one of ["shape"], ["loc"] and ["scale"]. *)
Definition value_lists (self : FitInspectionData) (p : string)
  : list (option (list param)) :=
  if String.eqb p "shape" then _shape_value self
  else if String.eqb p "loc" then _loc_value self
  else _scale_value self.

Definition sample_lists (self : FitInspectionData) (p : string)
  : option (list (list float)) :=
  if String.eqb p "shape" then shape_samples self
  else if String.eqb p "loc" then loc_samples self
  else scale_samples self.

Definition parameter_names : list string := ["shape"; "loc"; "scale"].

(** A behaviour of the estimators in which [curve_fit] converges under the
    default budget. *)
Definition converging_at_once : Scipy :=
  {| weibull_min_fit := fun _ => Ok (1.5, 0, 3)%float;
     norm_fit := fun _ => Ok (10, 1)%float;
     lognorm_fit := fun _ => Ok (0.2, 0, 7)%float;
     kde_fit := fun sample => Ok (sample, sample);
     curve_fit := fun _ _ _ _ => Ok (0.1, 1.5, 0.2)%float;
     np_log := fun x => (x - 1)%float |}.

(** A behaviour of the constructors of [distributions.py]: every call
    returns. *)
Definition accepting : Distributions :=
  {| distribution_init := fun _ => None;
     MultivariateDistribution_init := fun _ _ => None |}.

(** An inspection object that holds one fit for every parameter. *)
Definition one_fit_recorded : FitInspectionData :=
  {| used_number_of_intervals := None;
     shape_at := None;
     _shape_value := [Some [ConstantParam 1.5]; Some [ConstantParam 0];
                      Some [ConstantParam 3]];
     loc_at := None;
     _loc_value := [Some [ConstantParam 1.5]; Some [ConstantParam 0];
                    Some [ConstantParam 3]];
     scale_at := None;
     _scale_value := [Some [ConstantParam 1.5]; Some [ConstantParam 0];
                      Some [ConstantParam 3]];
     shape_samples := Some [[1; 2]%float];
     loc_samples := Some [[1; 2]%float];
     scale_samples := Some [[1; 2]%float] |}.

(** ** The loop of [_append_params] and the lists of a partition *)

(** The body of the loop of [_append_params], for the parameters
    [current_params] of one fit. *)
Definition append_one (current_params : fit_result) (dependency : list (option nat))
           (index : nat) (pv : list (list param)) (i : nat) : M (list (list param)) :=
  (di <- lift (getitem dependency i) ;;
   dindex <- lift (getitem dependency index) ;;
   if same_dependency di dindex then
     l <- lift (getitem pv i) ;;
     c <- lift (current_param current_params i) ;;
     lift (setitem pv i (l ++ [c]))
   else ret pv)%M.

(** The lists of a partition belong together: every fit carries the
    samples of its interval, every interval is populated, and the parameter
    list of a slot that shares the dependency of slot [index] has one entry
    per fit. *)
Definition lists_agree (dependency : list (option nat)) (index : nat) (st : partition)
  : Prop :=
  map samples (multiple_basic_fit st) = dist_values st
  /\ Forall (fun v => MIN_DATA_POINTS_FOR_FIT <= List.length v) (dist_values st)
  /\ forall j dj dx l,
       index <= j ->
       getitem dependency j = Ok dj -> getitem dependency index = Ok dx ->
       same_dependency dj dx = true ->
       getitem (param_values st) j = Ok l ->
       List.length l = List.length (multiple_basic_fit st).

(** The two descriptions of the example script:
    [{'name': 'Weibull', 'dependency': (None, None, None), 'width_of_intervals': 2}]
    and [{'name': 'Lognormal_1', 'dependency': (None, None, 0),
    'functions': (None, None, 'f2')}]. *)
Definition wave_height_description : dist_description :=
  {| key_name := Some "Weibull";
     key_dependency := Some [None; None; None];
     key_functions := None;
     key_number_of_intervals := None;
     key_width_of_intervals := Some 2%float;
     key_list_number_of_intervals := None;
     key_list_width_of_intervals := None;
     key_used_number_of_intervals := None |}.

Definition peak_period_description : dist_description :=
  {| key_name := Some "Lognormal_1";
     key_dependency := Some [None; None; Some 0];
     key_functions := Some [None; None; Some "f2"];
     key_number_of_intervals := None;
     key_width_of_intervals := None;
     key_list_number_of_intervals := None;
     key_list_width_of_intervals := None;
     key_used_number_of_intervals := None |}.

(** ** Predicates on traces and on the local state *)

(** Events by kind. *)
Definition is_curve_fit (ev : event) : bool :=
  match ev with
  | CurveFitted _ _ _ _ => true
  | _ => false
  end.

Definition is_warning (ev : event) : bool :=
  match ev with
  | Warned _ => true
  | _ => false
  end.


Definition not_curve_fit (ev : event) : Prop :=
  match ev with
  | CurveFitted _ _ _ _ => False
  | _ => True
  end.

(** The local variables of [_get_distribution] as they are before the first
    slot is filled, except that a partition with at least one fit may
    already be bound. *)
Definition untouched (st : locals) : Prop :=
  l_params st = [None; None; None]
  /\ l_used_number_of_intervals st = [None; None; None]
  /\ l_fit_inspection_data st = FitInspectionData_init
  /\ (forall f, l_fitting st = Some f -> multiple_basic_fit f <> []).

(** Closes a goal [In (CurveFitted ...) trace -> _] for an explicit trace. *)
Ltac in_trace :=
  let Hin := fresh "Hin" in
  intro Hin; simpl in Hin; intuition (try discriminate);
  match goal with
  | E : CurveFitted _ _ _ _ = CurveFitted _ _ _ _ |- _ => now injection E
  end.

(** * Properties *)

(** ** Reasoning about computations *)

Lemma bind_lift {A B} (r : result A) (k : A -> M B) :
  bind (lift r) k = match r with Ok a => k a | Err e => ([], Err e) end.
Proof. destruct r as [a|e]; simpl; [destruct (k a); reflexivity | reflexivity]. Qed.

Lemma bind_ret {A B} (a : A) (k : A -> M B) : bind (ret a) k = k a.
Proof. unfold ret, bind. destruct (k a); reflexivity. Qed.

Lemma bind_ok_inv {A B} (m : M A) (k : A -> M B) (t : list event) (b : B) :
  bind m k = (t, Ok b) ->
  exists t1 a t2, m = (t1, Ok a) /\ k a = (t2, Ok b) /\ t = t1 ++ t2.
Proof.
  destruct m as [t1 [a|e]]; simpl; [|discriminate].
  destruct (k a) as [t2 r] eqn:E. intro Heq. injection Heq as <- ->.
  now exists t1, a, t2.
Qed.

Lemma fst_bind_in {A B} (m : M A) (k : A -> M B) (ev : event) :
  In ev (fst (bind m k)) ->
  In ev (fst m) \/ exists a, snd m = Ok a /\ In ev (fst (k a)).
Proof.
  destruct m as [t [a|e]]; simpl.
  - destruct (k a) as [t' r] eqn:E. simpl. intro Hin.
    apply in_app_or in Hin as [Hin|Hin]; [now left|].
    right. exists a. rewrite E. now split.
  - now left.
Qed.

Lemma for_each_lift_trace {A S} (l : list A) (body : S -> A -> result S) (s : S) :
  fst (for_each l (fun s x => lift (body s x)) s) = [].
Proof.
  revert s. induction l as [|x l IH]; intro s; cbn [for_each]; [reflexivity|].
  rewrite bind_lift. destruct (body s x); [apply IH | reflexivity].
Qed.

Lemma for_each_app {A S} (l : list A) (x : A) (body : S -> A -> M S) (s : S) :
  for_each (l ++ [x]) body s = bind (for_each l body s) (fun s' => body s' x).
Proof.
  revert s. induction l as [|y l IH]; intro s; cbn [for_each app].
  - rewrite bind_ret. destruct (body s x) as [t [a|e]]; simpl; now rewrite ?app_nil_r.
  - destruct (body s y) as [t [a|e]]; simpl; [|reflexivity].
    rewrite IH.
    destruct (for_each l body a) as [t1 [a1|e1]]; simpl; [|reflexivity].
    destruct (body a1 x) as [t2 r2]. now rewrite app_assoc.
Qed.

Lemma bind_trace {A B} (P : event -> Prop) (m : M A) (k : A -> M B) :
  Forall P (fst m) ->
  (forall a, snd m = Ok a -> Forall P (fst (k a))) ->
  Forall P (fst (bind m k)).
Proof.
  destruct m as [t [a|e]]; simpl; intros Hm Hk; [|exact Hm].
  specialize (Hk a eq_refl). destruct (k a) as [t' r]. simpl in *.
  apply Forall_app. now split.
Qed.

Lemma snd_bind_ok {A B} (m : M A) (k : A -> M B) (b : B) :
  snd (bind m k) = Ok b -> exists a, snd m = Ok a /\ snd (k a) = Ok b.
Proof.
  destruct m as [t [a|e]]; simpl; [|discriminate].
  destruct (k a) as [t' r] eqn:E. simpl. intros ->. exists a. now rewrite E.
Qed.

Lemma snd_bind {A B} (m : M A) (k : A -> M B) :
  snd (bind m k) = match snd m with Ok a => snd (k a) | Err e => Err e end.
Proof. destruct m as [t [a|e]]; simpl; [|reflexivity]. now destruct (k a). Qed.

Lemma for_each_invariant {A S} (P : event -> Prop) (I : S -> Prop)
      (body : S -> A -> M S) (l : list A) :
  (forall s x, I s ->
     Forall P (fst (body s x)) /\ (forall s', snd (body s x) = Ok s' -> I s')) ->
  forall s, I s ->
    Forall P (fst (for_each l body s))
    /\ (forall s', snd (for_each l body s) = Ok s' -> I s').
Proof.
  intro Hbody. induction l as [|x l IH]; intros s Hs; cbn [for_each].
  - split; [constructor|]. simpl. intros s' E. now injection E as <-.
  - destruct (Hbody s x Hs) as [Ht Hnext]. split.
    + apply bind_trace; [exact Ht|]. intros a Ha. now apply IH, Hnext.
    + intros s' E. apply snd_bind_ok in E as [a [Ha E]].
      exact (proj2 (IH a (Hnext a Ha)) s' E).
Qed.

Lemma lift_trace {A} (P : event -> Prop) (r : result A) : Forall P (fst (lift r)).
Proof. constructor. Qed.
Lemma ret_trace {A} (P : event -> Prop) (a : A) : Forall P (fst (ret a)).
Proof. constructor. Qed.
Lemma raise_trace {A} (P : event -> Prop) (e : exn) : Forall P (fst (@raise A e)).
Proof. constructor. Qed.

Lemma try_except_trace {A} (P : event -> Prop) (body handler : M A) (cls : exn_class) :
  Forall P (fst body) -> Forall P (fst handler) ->
  Forall P (fst (try_except body cls handler)).
Proof.
  destruct body as [t [a|e]]; simpl; intros Hb Hh; [exact Hb|].
  destruct (isinstance e cls); [|exact Hb].
  destruct handler as [t' r]. simpl in *. apply Forall_app. now split.
Qed.

Lemma warn_trace (w : warning) : Forall not_curve_fit (fst (warn w)).
Proof. repeat constructor. Qed.

Lemma setitem_getitem {A} (l l' : list A) (i : nat) (x : A) :
  setitem l i x = Ok l' -> getitem l' i = Ok x.
Proof.
  revert l' i. induction l as [|h t IH]; intros l' [|j] E; simpl in E; try discriminate.
  - now injection E as <-.
  - destruct (setitem t j x) as [t'|e] eqn:Et; [|discriminate].
    injection E as <-. unfold getitem in *. simpl. now apply IH.
Qed.

Lemma values_of_constant (g : float -> float) (l : list param) (ys : list float) :
  values_of g l = Ok ys -> exists vs, l = map ConstantParam vs /\ ys = map g vs.
Proof.
  revert ys. induction l as [|p l IH]; intros ys E; simpl in E.
  - injection E as <-. now exists [].
  - destruct p as [v|a b c fn]; simpl in E; [|discriminate].
    destruct (values_of g l) as [vs|e]; simpl in E; [|discriminate].
    injection E as <-. destruct (IH vs eq_refl) as [ws [-> ->]].
    now exists (v :: ws).
Qed.


(** ** [FitInspectionData] *)

(** C2, at the code: on a freshly constructed [FitInspectionData] the lists
    that [append_basic_fit] appends to are still [None], so the call raises
    [AttributeError] for each of the three parameter names and every
    [BasicFit]. *)
Theorem append_basic_fit_fresh_raises (b : BasicFit) :
  let e := Err (Raise AttributeError "'NoneType' object has no attribute 'append'") in
  append_basic_fit FitInspectionData_init "shape" b = e
  /\ append_basic_fit FitInspectionData_init "loc" b = e
  /\ append_basic_fit FitInspectionData_init "scale" b = e.
Proof. repeat split. Qed.

(** ** The interval partition *)

(** C3, at the code: with a bin width of 1 and a covariate whose only value
    is 1.7 there are two candidate intervals and both are under-populated.
    The first deletion shortens [interval_centers]; the second one still uses
    the position in the original array and leaves the partition with
    [IndexError], not with the error that reports the number of intervals. *)
Theorem partition_two_empty_intervals `{Scipy} :
  _get_fitting_values [5%float] [[1.7]; [5]]%float "Weibull" [Some 0; None; None] 0
                      None (Some 1%float)
  = ([Warned (TooFewDataPoints 0 0.5 (Some 0))],
     Err (Raise IndexError "index 1 is out of bounds for axis 0 with size 1")).
Proof. vm_compute. reflexivity. Qed.

(** The same with two surviving intervals: of the four candidate intervals
    the first two hold ten samples each, the third none and the fourth one.
    The deletion for the fourth interval addresses position 3 of an array of
    three centers. *)
Lemma partition_two_of_four_intervals :
  @_get_fitting_values converging_on_retry sample_21 [covariate_21; sample_21]
                       "Weibull" [Some 0; None; None] 0 None (Some 1%float)
  = ([Fitted weibull_min (firstn 10 sample_21);
      Fitted weibull_min (firstn 10 (skipn 10 sample_21));
      Warned (TooFewDataPoints 0 2.5 (Some 0))],
     Err (Raise IndexError "index 3 is out of bounds for axis 0 with size 3")).
Proof. vm_compute. reflexivity. Qed.

(** The mask, as two comparisons of doubles. *)
Lemma mask_spec (step interval_width x : float) :
  mask step interval_width x = true
  <-> (step - 0.5 * interval_width <=? x)%float = true
      /\ (x <? step + 0.5 * interval_width)%float = true.
Proof. unfold mask. apply andb_true_iff. Qed.

Lemma insert_row_perm (r : float * float) (l : list (float * float)) :
  Permutation (insert_row r l) (r :: l).
Proof.
  induction l as [|h t IH]; simpl.
  - apply Permutation_refl.
  - destruct (np_lt (snd r) (snd h)).
    + apply Permutation_refl.
    + apply Permutation_trans with (h :: r :: t).
      * now apply perm_skip.
      * apply perm_swap.
Qed.

Lemma fold_insert_row_perm (rows acc : list (float * float)) :
  Permutation (fold_left (fun a r => insert_row r a) rows acc) (rows ++ acc).
Proof.
  revert acc. induction rows as [|r rows IH]; intro acc; simpl.
  - apply Permutation_refl.
  - apply Permutation_trans with (rows ++ insert_row r acc).
    + apply IH.
    + apply Permutation_trans with (rows ++ r :: acc).
      * apply Permutation_app_head. apply insert_row_perm.
      * apply Permutation_sym. apply Permutation_middle.
Qed.

Lemma sort_rows_perm (rows : list (float * float)) : Permutation (sort_rows rows) rows.
Proof.
  unfold sort_rows.
  apply Permutation_trans with (rows ++ []).
  - apply fold_insert_row_perm.
  - rewrite app_nil_r. apply Permutation_refl.
Qed.

Lemma filter_perm {A} (f : A -> bool) (l l' : list A) :
  Permutation l l' -> Permutation (filter f l) (filter f l').
Proof.
  induction 1 as [|x l l' _ IH|x y l|l l' l'' _ IH1 _ IH2]; simpl.
  - apply perm_nil.
  - destruct (f x); [now apply perm_skip | exact IH].
  - destruct (f x), (f y);
      try apply perm_swap; try apply Permutation_refl.
  - now apply Permutation_trans with (filter f l').
Qed.

(** C10, as the code has it: the samples fitted for the interval at center
    [step] are, up to their order, the first components of exactly those
    rows [(y, x)] of the stacked samples whose covariate value satisfies
    [lower <= x < upper], where the two edges are the doubles
    [lower = step - 0.5 * interval_width] and
    [upper = step + 0.5 * interval_width], each rounded to nearest, and the
    comparisons are those of doubles (a NaN lies in no interval). *)
Theorem interval_membership (rows : list (float * float)) (step interval_width : float) :
  let lower := (step - 0.5 * interval_width)%float in
  let upper := (step + 0.5 * interval_width)%float in
  (forall x : float,
      mask step interval_width x = true
      <-> (lower <=? x)%float = true /\ (x <? upper)%float = true)
  /\ Permutation (fitting_values_at (sort_rows rows) step interval_width)
                 (map fst (filter (fun r => (lower <=? snd r)%float && (snd r <? upper)%float)
                                  rows))
  /\ (forall y x : float,
         In (y, x) (filter (fun r => mask step interval_width (snd r)) (sort_rows rows))
         <-> In (y, x) rows /\ (lower <=? x)%float = true /\ (x <? upper)%float = true).
Proof.
  intros lower upper. split; [|split].
  - intro x. apply mask_spec.
  - unfold fitting_values_at. apply Permutation_map.
    change (fun r : float * float => (lower <=? snd r)%float && (snd r <? upper)%float)
      with (fun r : float * float => mask step interval_width (snd r)).
    apply filter_perm, sort_rows_perm.
  - intros y x. rewrite filter_In. simpl. rewrite mask_spec. split.
    + intros [Hin Hm]. split; [|exact Hm].
      apply Permutation_in with (sort_rows rows); [apply sort_rows_perm | exact Hin].
    + intros [Hin Hm]. split; [|exact Hm].
      apply Permutation_in with rows;
        [apply Permutation_sym, sort_rows_perm | exact Hin].
Qed.

(** C10, as the specification words it, fails.  With a bin width of 0.1 and
    a largest covariate of 0.35 the second interval center is
    0.15000000000000002.  For the covariate 0.2 the inequality
    [c - w / 2 <= x < c + w / 2] holds over the real numbers, but the upper
    edge rounds to 0.2 and the row is not selected. *)
Lemma interval_membership_counterexample :
  arange (0.5 * 0.1) 0.35 0.1
  = Ok [0.05; 0.15000000000000002; 0.25000000000000006]%float
  /\ in_real_interval 0.15000000000000002 0.1 0.2 = true
  /\ mask 0.15000000000000002 0.1 0.2 = false
  /\ (0.15000000000000002 + 0.5 * 0.1 = 0.2)%float
  /\ fitting_values_at (sort_rows [(1, 0.2)%float]) 0.15000000000000002 0.1 = [].
Proof. repeat split; vm_compute; reflexivity. Qed.

(** *** The number of interval centers *)

Lemma np_delete_length (arr arr' : list float) (i : nat) :
  np_delete arr i = Ok arr' -> S (List.length arr') = List.length arr.
Proof.
  unfold np_delete. destruct (i <? List.length arr) eqn:E; [|discriminate].
  apply Nat.ltb_lt in E. intro Heq.
  assert (Harr : arr' = firstn i arr ++ skipn (S i) arr) by congruence.
  rewrite Harr, length_app, length_firstn, length_skipn. lia.
Qed.

Lemma no_fit_failure_app (t1 t2 : list event) :
  no_fit_failure (t1 ++ t2) = true ->
  no_fit_failure t1 = true /\ no_fit_failure t2 = true.
Proof. unfold no_fit_failure. rewrite forallb_app. apply andb_true_iff. Qed.

Lemma arange_has_length (start stop step : float) (l : list float) :
  arange start stop step = Ok l -> arange_length start stop step = Ok (List.length l).
Proof.
  unfold arange. destruct (arange_length start stop step) as [n|e]; [|discriminate].
  cbn [rbind]. intro E. injection E as <-. now rewrite length_map, length_seq.
Qed.

(** Unless the quotient of a non-zero difference underflows to zero, the
    length is the ceiling of the double [(stop - start) / step]. *)
Lemma arange_length_ceiling (start stop step : float) (n : nat) :
  arange_length start stop step = Ok n ->
  negb (stop - start =? 0)%float && ((stop - start) / step =? 0)%float = false ->
  exists q : Q,
    exact ((stop - start) / step)%float = Some q /\ n = Z.to_nat (Qceiling q).
Proof.
  unfold arange_length. destruct (step =? 0)%float; [discriminate|].
  intros E Hu. rewrite Hu in E.
  destruct (exact ((stop - start) / step)%float) as [q|].
  - exists q. split; [reflexivity|].
    destruct ((- 2 ^ 63 <=? Qceiling q) && (Qceiling q <=? 2 ^ 63))%Z; [|discriminate].
    now injection E.
  - destruct (is_nan _); discriminate.
Qed.

(** One iteration that completes without a fit failure removes one center
    exactly when the interval is under-populated. *)
Lemma partition_step_count `{Scipy} (sorted : list (float * float)) (w : float)
      (name : string) (dependency : list (option nat)) (index : nat)
      (st : partition) (i : nat) (step : float) (t : list event) (st' : partition) :
  partition_step sorted w name dependency index st (i, step) = (t, Ok st') ->
  no_fit_failure t = true ->
  List.length (interval_centers st')
  + (if List.length (fitting_values_at sorted step w) <? MIN_DATA_POINTS_FOR_FIT
     then 1 else 0)
  = List.length (interval_centers st).
Proof.
  unfold partition_step.
  destruct (MIN_DATA_POINTS_FOR_FIT <=? List.length (fitting_values_at sorted step w))
    eqn:Hmin.
  - assert (Hlt : (List.length (fitting_values_at sorted step w)
                   <? MIN_DATA_POINTS_FOR_FIT) = false).
    { apply Nat.ltb_ge. now apply Nat.leb_le. }
    rewrite Hlt. unfold try_except.
    destruct (_append_params name (param_values st) dependency index
                (fitting_values_at sorted step w)) as [ta [[pv bf]|e]].
    + simpl. intros Heq _. injection Heq as _ <-. simpl. lia.
    + cbn [bind]. destruct (isinstance e ValueError); [|discriminate].
      rewrite bind_lift.
      destruct (np_delete (interval_centers st) i) as [centers|e1]; [|discriminate].
      rewrite bind_lift.
      destruct (getitem dependency index) as [d|e2]; [|discriminate].
      simpl. intros Heq Hno. injection Heq as <- _.
      apply no_fit_failure_app in Hno as [_ Hno]. discriminate.
  - assert (Hlt : (List.length (fitting_values_at sorted step w)
                   <? MIN_DATA_POINTS_FOR_FIT) = true).
    { apply Nat.ltb_lt. apply Nat.leb_gt in Hmin. exact Hmin. }
    rewrite Hlt, bind_lift.
    destruct (np_delete (interval_centers st) i) as [centers|e1] eqn:Hdel; [|discriminate].
    rewrite bind_lift.
    destruct (getitem dependency index) as [d|e2]; [|discriminate].
    simpl. intros Heq _. injection Heq as _ <-. simpl.
    apply np_delete_length in Hdel. lia.
Qed.

Lemma partition_loop_count `{Scipy} (sorted : list (float * float)) (w : float)
      (name : string) (dependency : list (option nat)) (index : nat) (l : list float) :
  forall (k : nat) (st : partition) (t : list event) (st' : partition),
    for_each (combine (seq k (List.length l)) l)
             (partition_step sorted w name dependency index) st = (t, Ok st') ->
    no_fit_failure t = true ->
    List.length (interval_centers st') + underpopulated sorted w l
    = List.length (interval_centers st).
Proof.
  induction l as [|step l IH]; intros k st t st' Hrun Hno.
  - simpl in Hrun. injection Hrun as _ <-. unfold underpopulated. simpl. lia.
  - cbn [List.length seq combine for_each] in Hrun.
    apply bind_ok_inv in Hrun as (t1 & s1 & t2 & Hstep & Hrest & ->).
    apply no_fit_failure_app in Hno as [Hno1 Hno2].
    apply partition_step_count in Hstep; [|exact Hno1].
    apply IH in Hrest; [|exact Hno2].
    unfold underpopulated in *. cbn [filter].
    destruct (List.length (fitting_values_at sorted step w) <? MIN_DATA_POINTS_FOR_FIT);
      cbn [List.length]; lia.
Qed.

(** C5, as the code has it: a partition with a fixed interval width [W]
    that returns, without a failed per-interval fit, returns as many
    interval centers as [np.arange(W / 2, max(covariate), W)] has elements,
    minus one for every one of these candidate intervals with fewer than 10
    samples.  The number of candidates is the ceiling of the double
    [(max(covariate) - 0.5 * W) / W], the product, the difference and the
    quotient each rounded to nearest (unless that quotient underflows to
    zero). *)
Theorem center_count_fixed_width `{Scipy} (sample : list float)
        (samples : list (list float)) (name : string) (dependency : list (option nat))
        (index : nat) (W : float) (column : list float) (stop : float)
        (t : list event) (p : partition) :
  dependent_column samples dependency index = Ok column ->
  py_max column = Ok stop ->
  _get_fitting_values sample samples name dependency index None (Some W) = (t, Ok p) ->
  no_fit_failure t = true ->
  exists candidates : list float,
    arange (0.5 * W) stop W = Ok candidates
    /\ Z.of_nat (List.length (interval_centers p))
       = (Z.of_nat (List.length candidates)
          - Z.of_nat (underpopulated (sort_rows (combine sample column)) W candidates))%Z
    /\ (negb (stop - 0.5 * W =? 0)%float && ((stop - 0.5 * W) / W =? 0)%float = false ->
        exists q : Q,
          exact ((stop - 0.5 * W) / W)%float = Some q
          /\ List.length candidates = Z.to_nat (Qceiling q)).
Proof.
  intros Hcol Hmax Hrun Hno.
  unfold _get_fitting_values, compute_intervals in Hrun. cbn match in Hrun.
  destruct (W =? 0)%float eqn:HW; cbn [negb] in Hrun; [discriminate|].
  rewrite Hcol in Hrun. cbn [rbind] in Hrun. rewrite Hmax in Hrun. cbn [rbind] in Hrun.
  destruct (arange (0.5 * W) stop W) as [candidates|e] eqn:Har; [|discriminate].
  cbn [rbind] in Hrun. rewrite !bind_lift in Hrun.
  unfold stack_T in Hrun.
  destruct (List.length sample =? List.length column); [|discriminate].
  apply bind_ok_inv in Hrun as (t1 & st & t2 & Hloop & Hend & ->).
  apply no_fit_failure_app in Hno as [Hno _].
  destruct (List.length (interval_centers st) <? 3) eqn:H3; [discriminate|].
  injection Hend as _ <-.
  unfold enumerate in Hloop.
  apply partition_loop_count in Hloop; [|exact Hno].
  cbn [interval_centers] in Hloop.
  exists candidates. split; [reflexivity|]. split; [lia|].
  apply arange_length_ceiling. now apply arange_has_length.
Qed.

Lemma center_count_fixed_width_witness :
  exists (t : list event) (p : partition),
    @_get_fitting_values converging_on_retry sample_30 [covariate_30; sample_30]
                         "Weibull" [Some 0; None; None] 0 None (Some 0.22%float) = (t, Ok p)
    /\ interval_centers p = [0.11; 0.33; 0.55000000000000004]%float
    /\ exists candidates : list float,
         arange (0.5 * 0.22) 0.55 0.22 = Ok candidates
         /\ Z.of_nat (List.length (interval_centers p))
            = (Z.of_nat (List.length candidates)
               - Z.of_nat (underpopulated (sort_rows (combine sample_30 covariate_30)) 0.22
                                          candidates))%Z
         /\ (negb (0.55 - 0.5 * 0.22 =? 0)%float && ((0.55 - 0.5 * 0.22) / 0.22 =? 0)%float
             = false ->
             exists q : Q,
               exact ((0.55 - 0.5 * 0.22) / 0.22)%float = Some q
               /\ List.length candidates = Z.to_nat (Qceiling q)).
Proof.
  eexists. eexists. split; [vm_compute; reflexivity|]. split; [reflexivity|].
  eapply (@center_count_fixed_width converging_on_retry sample_30
            [covariate_30; sample_30] "Weibull" [Some 0; None; None] 0 0.22%float
            covariate_30 0.55%float).
  - reflexivity.
  - vm_compute. reflexivity.
  - vm_compute. reflexivity.
  - reflexivity.
Defined.

(** C5, as the specification words it, fails: forty samples whose covariate
    is ten times each of 0.5, 1.5, 2.5 and 3.3, and a width of 1.  No
    interval is under-populated and no fit fails; [ceil(3.3 / 1)] is 4, but
    the partition returns the three centers 0.5, 1.5 and 2.5.  The count of
    under-populated intervals is 0 both over the centers the code generates
    and over the four intervals that cover [[0, 4)]. *)
Lemma center_count_counterexample :
  exists (t : list event) (p : partition),
    @_get_fitting_values converging_on_retry sample_40 [covariate_40; sample_40]
                         "Weibull" [Some 0; None; None] 0 None (Some 1%float) = (t, Ok p)
    /\ no_fit_failure t = true
    /\ py_max covariate_40 = Ok 3.3%float
    /\ interval_centers p = [0.5; 1.5; 2.5]%float
    /\ specified_center_count (sort_rows (combine sample_40 covariate_40)) 1 3.3
                              [0.5; 1.5; 2.5]%float = 4%Z
    /\ specified_center_count (sort_rows (combine sample_40 covariate_40)) 1 3.3
                              (covering_centers 1 3.3) = 4%Z
    /\ Z.of_nat (List.length (interval_centers p))
       <> specified_center_count (sort_rows (combine sample_40 covariate_40)) 1
                                 3.3 [0.5; 1.5; 2.5]%float
    /\ Z.of_nat (List.length (interval_centers p))
       <> specified_center_count (sort_rows (combine sample_40 covariate_40)) 1
                                 3.3 (covering_centers 1 3.3).
Proof.
  eexists. eexists. split; [vm_compute; reflexivity|].
  repeat split; try (vm_compute; reflexivity); vm_compute; discriminate.
Qed.

(** ** The marginal fitter *)

(** C6, at the code: the family name ["Lognormal_3"] is outside the
    enumeration, yet [_fit_distribution] hands the sample to the lognormal
    estimator and returns its parameters. *)
Theorem fit_distribution_accepts_Lognormal_3 `{Scipy} (sample : list float) :
  _fit_distribution sample "Lognormal_3"
  = ([Fitted lognorm sample],
     match lognorm_fit sample with
     | Ok (c, l, s) => Ok (Params (ConstantParam c) (ConstantParam l) (ConstantParam s))
     | Err e => Err e
     end).
Proof.
  unfold _fit_distribution. simpl.
  destruct (lognorm_fit sample) as [[[c l] s]|e]; reflexivity.
Qed.

(** A name that no branch recognises reaches the [return] with [params]
    unbound. *)
Lemma fit_distribution_unknown_name `{Scipy} (sample : list float) :
  _fit_distribution sample "Gamma"
  = ([], Err (Raise UnboundLocalError
                "local variable 'params' referenced before assignment")).
Proof. reflexivity. Qed.

(** ** The per-dimension fit *)

Lemma option_nat_eqb_eq (a b : option nat) : option_nat_eqb a b = true <-> a = b.
Proof.
  destruct a as [x|], b as [y|]; simpl; split; intro E;
    try discriminate; try reflexivity.
  - apply Nat.eqb_eq in E. now subst.
  - injection E as ->. apply Nat.eqb_refl.
Qed.

Lemma dependency_eqb_eq (a b : list (option nat)) : dependency_eqb a b = true <-> a = b.
Proof.
  revert b. induction a as [|x a IH]; intros [|y b]; simpl; split; intro E;
    try discriminate; try reflexivity.
  - apply andb_true_iff in E as [E1 E2].
    apply option_nat_eqb_eq in E1. apply IH in E2. now subst.
  - injection E as -> ->. apply andb_true_iff. split.
    + now apply option_nat_eqb_eq.
    + now apply IH.
Qed.

(** C7: for the family [KernelDensity] and a dependency other than
    [(None, None, None)], [_get_distribution] raises
    [NotImplementedError("KernelDensity can not be conditional.")] whatever
    the samples are, and the trace is empty: no estimator was called. *)
Theorem kernel_density_cannot_be_conditional `{Scipy} `{Distributions}
        (dimension : nat) (samples : list (list float)) (sample : list float)
        (kwargs : dist_description) (dependency : list (option nat)) :
  getitem samples dimension = Ok sample ->
  key_name kwargs = Some "KernelDensity" ->
  key_dependency kwargs = Some dependency ->
  dependency <> [None; None; None] ->
  _get_distribution dimension samples kwargs = ([], Err kernel_density_conditional).
Proof.
  intros Hsample Hname Hdep Hne.
  unfold _get_distribution. rewrite Hsample, Hname, Hdep. simpl.
  destruct (dependency_eqb dependency no_dependency) eqn:E.
  - apply dependency_eqb_eq in E. contradiction.
  - reflexivity.
Qed.

Lemma kernel_density_cannot_be_conditional_witness :
  getitem [[1; 2]%float; [3; 4]%float] 1 = Ok [3; 4]%float
  /\ @_get_distribution converging_on_retry accepting 1 [[1; 2]%float; [3; 4]%float]
       (description "KernelDensity" [None; Some 0; None])
     = ([], Err kernel_density_conditional).
Proof.
  split; [reflexivity|].
  apply (@kernel_density_cannot_be_conditional converging_on_retry accepting 1
           [[1; 2]%float; [3; 4]%float] [3; 4]%float
           (description "KernelDensity" [None; Some 0; None]) [None; Some 0; None]).
  - reflexivity.
  - reflexivity.
  - reflexivity.
  - discriminate.
Defined.

(** C8, at the code: the second dimension declares its scale as dependent on
    dimension 0, for which neither [number_of_intervals] nor
    [width_of_intervals] is given.  The shape slot is independent and is
    processed first: the Weibull estimator runs on the whole sample, and the
    call then ends in [AttributeError]; the error of [_get_fitting_values]
    about unspecified intervals is not raised. *)
Theorem unspecified_intervals_after_marginal_fit `{Scipy} `{Distributions} (covariate sample : list float) :
  _get_distribution 1 [covariate; sample]
    {| key_name := Some "Weibull";
       key_dependency := Some [None; None; Some 0];
       key_functions := Some [None; None; Some "f1"];
       key_number_of_intervals := None;
       key_width_of_intervals := None;
       key_list_number_of_intervals := Some [None; None];
       key_list_width_of_intervals := Some [None; None];
       key_used_number_of_intervals := None |}
  = ([Fitted weibull_min sample],
     match weibull_min_fit sample with
     | Ok _ => Err (Raise AttributeError "'NoneType' object has no attribute 'append'")
     | Err e => Err e
     end).
Proof.
  unfold _get_distribution, slot_step, _fit_distribution. simpl.
  destruct (weibull_min_fit sample) as [[[c l] s]|e]; reflexivity.
Qed.

(** When the dependent slot comes first, no estimator runs, and the call
    ends in [UnboundLocalError]: neither [if] nor [elif] of the dependent
    branch is taken, so [_get_fitting_values] is not called. *)
Lemma unspecified_intervals_first_slot `{Scipy} `{Distributions} (covariate sample : list float) :
  _get_distribution 1 [covariate; sample]
    {| key_name := Some "Weibull";
       key_dependency := Some [Some 0; None; None];
       key_functions := Some [Some "f1"; None; None];
       key_number_of_intervals := None;
       key_width_of_intervals := None;
       key_list_number_of_intervals := Some [None; None];
       key_list_width_of_intervals := Some [None; None];
       key_used_number_of_intervals := None |}
  = ([],
     Err (Raise UnboundLocalError
            "local variable 'multiple_basic_fit' referenced before assignment")).
Proof. reflexivity. Qed.

(** The partition itself does raise the configuration error, before any
    estimator is called, when it is given neither setting. *)
Lemma get_fitting_values_unspecified `{Scipy} (sample : list float)
      (samples : list (list float)) (name : string) (dependency : list (option nat))
      (index : nat) :
  _get_fitting_values sample samples name dependency index None None
  = ([], Err intervals_not_specified).
Proof. reflexivity. Qed.

(** ** The coordinator *)

(** C1, at the code: one dimension of the family [KernelDensity] without
    dependency.  The worker returns; [__init__] takes the third component of
    the returned tuple, a list, as the fit inspection data, and the loop that
    defaults [used_number_of_intervals] raises [AttributeError]. *)
Theorem Fit_init_kernel_density_raises `{Scipy} `{Distributions} (sample : list float) :
  Fit_init [sample] [description "KernelDensity" [None; None; None]]
  = match kde_fit sample with
    | Ok _ =>
        Err (Raise AttributeError
               "'list' object has no attribute 'used_number_of_intervals'")
    | Err e => Err e
    end.
Proof.
  assert (Hworker :
    snd (_get_distribution 0 [sample]
           {| key_name := Some "KernelDensity";
              key_dependency := Some [None; None; None];
              key_functions := None;
              key_number_of_intervals := None;
              key_width_of_intervals := None;
              key_list_number_of_intervals := Some [None];
              key_list_width_of_intervals := Some [None];
              key_used_number_of_intervals := None |})
    = match kde_fit sample with
      | Ok (cdf, icdf) =>
          Ok (Some (KernelDensityDistribution (KdeFunctions cdf icdf)),
              [None; None; None],
              PyList [PyList [PyArray sample]; PyList [PyArray sample];
                      PyList [PyArray sample]],
              PyList [PyNone; PyNone; PyNone])
      | Err e => Err e
      end).
  { unfold _get_distribution, _fit_distribution. simpl.
    destruct (kde_fit sample) as [[cdf icdf]|e]; reflexivity. }
  unfold Fit_init. simpl. unfold collect_step. rewrite Hworker.
  destruct (kde_fit sample) as [[cdf icdf]|e]; reflexivity.
Qed.

(** ** The dependency curve fit *)

(** C4: when the first [curve_fit] (default budget) raises a
    [RuntimeError], [fit_curve] warns with the parameter name and the
    dimension and calls [curve_fit] exactly once more, with
    [maxfev = 1000000]; if that call raises a [RuntimeError] too, the
    statement raises the [RuntimeError] naming the parameter and the
    dimension, otherwise it yields the parameters of the second call. *)
Theorem curve_fit_retried_once `{Scipy} (name : string) (dimension i : nat)
        (function_name : option string) (centers fit_points : list float)
        (f : option dep_function) (e : exn) (param_name : string) :
  _get_function function_name = Ok f ->
  param_name_of name i = Ok param_name ->
  curve_fit f centers fit_points None = Err e ->
  isinstance e RuntimeError = true ->
  fit_curve name dimension i function_name centers fit_points
  = ([CurveFitted f centers fit_points None;
      Warned (OptimalParametersNotFound param_name dimension function_name);
      CurveFitted f centers fit_points (Some 1000000%Z)],
     match curve_fit f centers fit_points (Some 1000000%Z) with
     | Ok popt => Ok popt
     | Err e' =>
         if isinstance e' RuntimeError then
           Err (Raise RuntimeError
                  ("Can't fit curve for parameter '" ++ param_name ++ "' in dimension '"
                   ++ str dimension ++ "'. Number of iterations exceeded.")%string)
         else Err e'
     end).
Proof.
  intros Hf Hname Hfirst Hcls.
  unfold fit_curve, maxfev_retry. rewrite Hf, Hname. simpl.
  rewrite Hfirst. simpl. rewrite Hcls.
  destruct (curve_fit f centers fit_points (Some 1000000%Z)) as [popt|e'] eqn:Hretry; simpl.
  - reflexivity.
  - destruct (isinstance e' RuntimeError); reflexivity.
Qed.

Lemma curve_fit_retried_once_witness :
  @fit_curve never_converging "Lognormal_2" 1 2 (Some "f2")
             [0.5; 1.5; 2.5]%float [7; 8; 9]%float
  = ([CurveFitted (Some _f2) [0.5; 1.5; 2.5]%float [7; 8; 9]%float None;
      Warned (OptimalParametersNotFound "mu" 1 (Some "f2"));
      CurveFitted (Some _f2) [0.5; 1.5; 2.5]%float [7; 8; 9]%float (Some 1000000%Z)],
     Err (Raise RuntimeError
            "Can't fit curve for parameter 'mu' in dimension '1'. Number of iterations exceeded."))
  /\ @fit_curve converging_on_retry "Weibull" 1 0 (Some "f1")
                [0.5; 1.5; 2.5]%float [7; 8; 9]%float
     = ([CurveFitted (Some _f1) [0.5; 1.5; 2.5]%float [7; 8; 9]%float None;
         Warned (OptimalParametersNotFound "shape" 1 (Some "f1"));
         CurveFitted (Some _f1) [0.5; 1.5; 2.5]%float [7; 8; 9]%float (Some 1000000%Z)],
        Ok (0.1, 1.5, 0.2)%float).
Proof.
  split.
  - apply (@curve_fit_retried_once never_converging "Lognormal_2" 1 2 (Some "f2")
             [0.5; 1.5; 2.5]%float [7; 8; 9]%float (Some _f2)
             (Raise RuntimeError "Optimal parameters not found.") "mu");
      reflexivity.
  - apply (@curve_fit_retried_once converging_on_retry "Weibull" 1 0 (Some "f1")
             [0.5; 1.5; 2.5]%float [7; 8; 9]%float (Some _f1)
             (Raise RuntimeError "Optimal parameters not found.") "shape");
      reflexivity.
Defined.

(** Every [curve_fit] call of [fit_curve] receives the interval centers and
    the fit points it was given. *)
Lemma fit_curve_events `{Scipy} (name : string) (dimension i : nat)
      (fn : option string) (centers pts : list float) (f : option dep_function)
      (x y : list float) (m : option Z) :
  In (CurveFitted f x y m) (fst (fit_curve name dimension i fn centers pts)) ->
  x = centers /\ y = pts.
Proof.
  unfold fit_curve, try_except.
  rewrite !bind_lift.
  destruct (_get_function fn) as [g|e0]; simpl.
  - destruct (curve_fit g centers pts None) as [popt|e]; simpl; [in_trace|].
    destruct (isinstance e RuntimeError); simpl; [|in_trace].
    destruct (param_name_of name i) as [pn|e']; simpl; [|in_trace].
    destruct (curve_fit g centers pts (Some maxfev_retry)) as [popt|e2]; simpl; [in_trace|].
    destruct (isinstance e2 RuntimeError); simpl; in_trace.
  - destruct (isinstance e0 RuntimeError) eqn:E0; simpl; [|in_trace].
    destruct (param_name_of name i) as [pn|e']; simpl; [|in_trace].
    in_trace.
Qed.

(** Nothing between [fit_curve] and the end of the loop body handles its
    exception: once the body has reached the curve fit, an exception of
    [fit_curve] is the exception of the body. *)
Lemma fit_curve_error_surfaces `{Scipy} (name : string) (dimension : nat)
      (dependency : list (option nat)) (functions : list (option string))
      (index i : nat) (st : locals) (di dindex : option nat) (fitting : partition)
      (fid : FitInspectionData) (used : list (option nat)) (values : list param)
      (pts : list float) (fn : option string) (e : exn) :
  getitem dependency i = Ok di ->
  getitem dependency index = Ok dindex ->
  same_dependency di dindex = true ->
  l_fitting st = Some fitting ->
  for_each (multiple_basic_fit fitting)
           (fun fid basic_fit => lift (append_for fid i basic_fit))
           (l_fit_inspection_data st) = ([], Ok fid) ->
  setitem (l_used_number_of_intervals st) i
          (Some (List.length (interval_centers fitting))) = Ok used ->
  getitem (param_values fitting) i = Ok values ->
  fit_points_of name i values = Ok pts ->
  getitem functions i = Ok fn ->
  snd (fit_curve name dimension i fn (interval_centers fitting) pts) = Err e ->
  snd (dependent_fill name dimension dependency functions index st i) = Err e.
Proof.
  intros Hdi Hdx Hsame Hfit Happ Hused Hvalues Hpts Hfn Hcurve.
  unfold dependent_fill.
  rewrite Hdi, bind_lift, Hdx, bind_lift, Hsame, Hfit, bind_ret, Happ.
  change (bind ([], Ok fid) ?k) with (bind (ret fid) k). rewrite bind_ret.
  rewrite Hused, bind_lift, Hvalues, bind_lift, Hpts, bind_lift, Hfn, bind_lift.
  destruct (fit_curve name dimension i fn (interval_centers fitting) pts) as [t r].
  simpl in Hcurve. subst r. reflexivity.
Qed.

(** ** What a run can reach *)

Lemma collect_prefix (rs : list async_result) :
  forall st st', collect st rs = Ok st' ->
  exists more, c_multiple_fit_inspection_data st'
               = c_multiple_fit_inspection_data st ++ more.
Proof.
  induction rs as [|r rs IH]; intros st st' E; simpl in E.
  - injection E as <-. exists []. now rewrite app_nil_r.
  - destruct (collect_step st r) as [st1|e] eqn:E1; simpl in E; [|discriminate].
    apply IH in E as [more ->].
    unfold collect_step in E1. destruct r as [[[[d dep] o3] o4]|e]; simpl in E1; [|discriminate].
    destruct (save_used _ _ _); simpl in E1; [|discriminate].
    injection E1 as <-. simpl. rewrite <- app_assoc. eauto.
Qed.

Section Reach.

Context `{Scipy} `{Distributions}.

Lemma fit_distribution_trace sample name :
  Forall not_curve_fit (fst (_fit_distribution sample name)).
Proof.
  unfold _fit_distribution.
  repeat match goal with
         | |- context [if ?c then _ else _] => destruct c
         end;
    try (apply bind_trace; [repeat constructor|]; intros [[? ?] ?] _; apply ret_trace);
    try (apply bind_trace; [repeat constructor|]; intros [? ?] _; apply ret_trace).
  apply raise_trace.
Qed.

Lemma append_params_trace name pv dependency index fv :
  Forall not_curve_fit (fst (_append_params name pv dependency index fv)).
Proof.
  unfold _append_params.
  apply bind_trace; [apply fit_distribution_trace|]. intros cp _.
  apply bind_trace; [apply lift_trace|]. intros bf _.
  apply bind_trace; [|intros; apply ret_trace].
  apply (for_each_invariant not_curve_fit (fun _ => True)); [|exact I].
  intros s x _. split; [|auto].
  apply bind_trace; [apply lift_trace|]. intros di _.
  apply bind_trace; [apply lift_trace|]. intros dx _.
  destruct (same_dependency di dx); [|apply ret_trace].
  apply bind_trace; [apply lift_trace|]. intros l _.
  apply bind_trace; [apply lift_trace|]. intros c _. apply lift_trace.
Qed.


Lemma partition_step_trace sorted w name dependency index st i_step :
  Forall not_curve_fit (fst (partition_step sorted w name dependency index st i_step)).
Proof.
  unfold partition_step. destruct i_step as [i step].
  destruct (MIN_DATA_POINTS_FOR_FIT <=? _).
  - apply try_except_trace.
    + apply bind_trace; [apply append_params_trace|]. intros [pv bf] _. apply ret_trace.
    + apply bind_trace; [apply lift_trace|]. intros c _.
      apply bind_trace; [apply lift_trace|]. intros d _.
      apply bind_trace; [apply warn_trace|]. intros _ _. apply ret_trace.
  - apply bind_trace; [apply lift_trace|]. intros c _.
    apply bind_trace; [apply lift_trace|]. intros d _.
    apply bind_trace; [apply warn_trace|]. intros _ _. apply ret_trace.
Qed.

(** Every completed iteration either records one more fit or removes one center. *)
Lemma partition_step_balance sorted w name dependency index st i_step st' :
  snd (partition_step sorted w name dependency index st i_step) = Ok st' ->
  List.length (interval_centers st') + List.length (multiple_basic_fit st) + 1
  = List.length (interval_centers st) + List.length (multiple_basic_fit st').
Proof.
  unfold partition_step. destruct i_step as [i step].
  assert (Hdrop : forall wn,
    snd (bind (lift (np_delete (interval_centers st) i))
           (fun centers =>
              bind (lift (getitem dependency index))
                (fun d => bind (warn (wn d))
                   (fun _ => ret {| interval_centers := centers;
                                    dist_values := dist_values st;
                                    param_values := param_values st;
                                    multiple_basic_fit := multiple_basic_fit st |}))))
    = Ok st' ->
    List.length (interval_centers st') + List.length (multiple_basic_fit st) + 1
    = List.length (interval_centers st) + List.length (multiple_basic_fit st')).
  { intros wn. rewrite bind_lift.
    destruct (np_delete (interval_centers st) i) as [centers|e] eqn:Hdel; [|discriminate].
    rewrite bind_lift. destruct (getitem dependency index) as [d|e]; [|discriminate].
    simpl. intro E. injection E as <-. simpl. apply np_delete_length in Hdel. lia. }
  destruct (MIN_DATA_POINTS_FOR_FIT <=? _).
  - unfold try_except.
    destruct (_append_params _ _ _ _ _) as [ta [[pv bf]|e]].
    + simpl. intro E. injection E as <-. simpl. rewrite length_app. simpl. lia.
    + cbn [bind]. destruct (isinstance e ValueError); [|discriminate].
      intro E. apply (Hdrop (NoFittingDataForStep step)).
      destruct (bind _ _) as [t' r']. exact E.
  - apply (Hdrop (TooFewDataPoints _ step)).
Qed.

Lemma partition_loop_balance sorted w name dependency index l :
  forall st st',
  snd (for_each l (partition_step sorted w name dependency index) st) = Ok st' ->
  List.length (interval_centers st') + List.length (multiple_basic_fit st) + List.length l
  = List.length (interval_centers st) + List.length (multiple_basic_fit st').
Proof.
  induction l as [|x l IH]; intros st st' E; cbn [for_each] in E.
  - simpl in E. injection E as <-. simpl. lia.
  - apply snd_bind_ok in E as [s1 [E1 E2]].
    apply partition_step_balance in E1. apply IH in E2. simpl. lia.
Qed.

Lemma get_fitting_values_trace sample samples name dependency index n w :
  Forall not_curve_fit
         (fst (_get_fitting_values sample samples name dependency index n w)).
Proof.
  unfold _get_fitting_values.
  apply bind_trace; [apply lift_trace|]. intros [centers width] _.
  apply bind_trace; [apply lift_trace|]. intros column _.
  apply bind_trace; [apply lift_trace|]. intros rows _.
  apply bind_trace.
  - apply (for_each_invariant not_curve_fit (fun _ => True)); [|exact I].
    intros s x _. split; [apply partition_step_trace | auto].
  - intros st _. destruct (_ <? 3); [apply raise_trace | apply ret_trace].
Qed.

Lemma get_fitting_values_fits sample samples name dependency index n w p :
  snd (_get_fitting_values sample samples name dependency index n w) = Ok p ->
  multiple_basic_fit p <> [].
Proof.
  unfold _get_fitting_values. rewrite bind_lift.
  destruct (compute_intervals _ _ _ _ _) as [[centers width]|e]; [|discriminate].
  rewrite bind_lift. destruct (dependent_column _ _ _) as [column|e]; [|discriminate].
  rewrite bind_lift. destruct (stack_T _ _) as [rows|e]; [|discriminate].
  intro E. apply snd_bind_ok in E as [st [Hloop Hend]].
  destruct (List.length (interval_centers st) <? 3) eqn:H3; [discriminate|].
  simpl in Hend. injection Hend as <-. apply Nat.ltb_ge in H3.
  apply partition_loop_balance in Hloop. simpl in Hloop.
  unfold enumerate in Hloop. rewrite length_combine, length_seq, Nat.min_id in Hloop.
  intro Hnil. rewrite Hnil in Hloop. simpl in Hloop. lia.
Qed.

Lemma independent_fill_untouched name dependency cp bf st i :
  untouched st ->
  fst (independent_fill name dependency cp bf st i) = []
  /\ (forall st', snd (independent_fill name dependency cp bf st i) = Ok st' -> st' = st).
Proof.
  intros (Hp & Hu & Hf & Hm). unfold independent_fill. rewrite bind_lift.
  destruct (getitem dependency i) as [[k|]|e].
  - split; [reflexivity|]. simpl. intros st' E. congruence.
  - rewrite Hf.
    destruct i as [|[|[|j]]]; simpl; try (split; [reflexivity | discriminate]).
    destruct cp; simpl; split; try reflexivity; discriminate.
  - split; [reflexivity | discriminate].
Qed.

Lemma dependent_fill_untouched name dimension dependency functions index st i :
  untouched st ->
  fst (dependent_fill name dimension dependency functions index st i) = []
  /\ (forall st', snd (dependent_fill name dimension dependency functions index st i) = Ok st'
                  -> st' = st).
Proof.
  intros (Hp & Hu & Hf & Hm). unfold dependent_fill. rewrite bind_lift.
  destruct (getitem dependency i) as [di|e]; [|split; [reflexivity | discriminate]].
  rewrite bind_lift.
  destruct (getitem dependency index) as [dx|e]; [|split; [reflexivity | discriminate]].
  destruct (same_dependency di dx);
    [|split; [reflexivity | simpl; intros st' E; congruence]].
  destruct (l_fitting st) as [f|] eqn:Hfit; [|split; [reflexivity | discriminate]].
  rewrite bind_ret, Hf, Hu.
  specialize (Hm f eq_refl).
  destruct (multiple_basic_fit f) as [|bf rest]; [contradiction|].
  cbn [for_each]. rewrite bind_lift.
  destruct i as [|[|[|j]]]; simpl append_for; try (split; [reflexivity | discriminate]).
  pose proof (for_each_lift_trace rest
                (fun fid basic_fit => append_for fid (S (S (S j))) basic_fit)
                FitInspectionData_init) as Ht.
  change (append_for FitInspectionData_init (S (S (S j))) bf)
    with (@Ok FitInspectionData FitInspectionData_init).
  cbv iota beta.
  destruct (for_each rest _ FitInspectionData_init) as [t [fid|e]]; simpl in Ht; subst t;
    simpl; split; try reflexivity; discriminate.
Qed.

Lemma fills_untouched {A} (body : locals -> A -> M locals) (l : list A) :
  (forall st i, untouched st ->
     fst (body st i) = [] /\ (forall st', snd (body st i) = Ok st' -> st' = st)) ->
  forall st, untouched st ->
    Forall not_curve_fit (fst (for_each l body st))
    /\ (forall st', snd (for_each l body st) = Ok st' -> untouched st').
Proof.
  intro Hbody. apply for_each_invariant. intros s x Hs.
  destruct (Hbody s x Hs) as [Ht Hsame]. split.
  - rewrite Ht. constructor.
  - intros s' E. now rewrite (Hsame s' E).
Qed.

Lemma with_fitting_untouched st f :
  untouched st -> multiple_basic_fit f <> [] -> untouched (with_fitting st f).
Proof.
  intros (Hp & Hu & Hf & Hm) Hne. unfold untouched, with_fitting. simpl.
  repeat split; try assumption. intros g E. now injection E as <-.
Qed.

Lemma slot_step_untouched sample samples name dimension dependency functions lni lwi st index :
  untouched st ->
  Forall not_curve_fit
         (fst (slot_step sample samples name dimension dependency functions lni lwi st index))
  /\ (forall st',
        snd (slot_step sample samples name dimension dependency functions lni lwi st index)
        = Ok st' -> untouched st').
Proof.
  intro Hst. unfold slot_step. rewrite bind_lift.
  destruct (getitem (l_params st) index) as [[p|]|e].
  - split; [constructor|]. simpl. intros st' E. now injection E as <-.
  - rewrite bind_lift. destruct (getitem dependency index) as [[k|]|e].
    + rewrite bind_lift.
      destruct (subscript lni k) as [n|e]; [|split; [constructor | discriminate]].
      set (fills := for_each (range index (List.length functions))
                             (dependent_fill name dimension dependency functions index)).
      assert (Hfills : forall s, untouched s ->
                 Forall not_curve_fit (fst (fills s))
                 /\ (forall st', snd (fills s) = Ok st' -> untouched st')).
      { apply fills_untouched. intros s i Hs. now apply dependent_fill_untouched. }
      assert (Hpart : forall pn pw,
                 Forall not_curve_fit
                   (fst (bind (_get_fitting_values sample samples name dependency index pn pw)
                              (fun f => ret (with_fitting st f))))
                 /\ (forall s,
                       snd (bind (_get_fitting_values sample samples name dependency index
                                                      pn pw)
                                 (fun f => ret (with_fitting st f))) = Ok s ->
                       untouched s)).
      { intros pn pw. split.
        - apply bind_trace; [apply get_fitting_values_trace | intros; apply ret_trace].
        - intros s E. apply snd_bind_ok in E as [f [Hf E]]. simpl in E. injection E as <-.
          apply with_fitting_untouched; [exact Hst|].
          now apply get_fitting_values_fits in Hf. }
      assert (Hpre : forall m : M locals,
                 Forall not_curve_fit (fst m) ->
                 (forall s, snd m = Ok s -> untouched s) ->
                 Forall not_curve_fit (fst (bind m fills))
                 /\ (forall st', snd (bind m fills) = Ok st' -> untouched st')).
      { intros m Ht Hs. split.
        - apply bind_trace; [exact Ht|]. intros a Ha. now apply Hfills, Hs.
        - intros st' E. apply snd_bind_ok in E as [a [Ha E]].
          exact (proj2 (Hfills a (Hs a Ha)) st' E). }
      apply Hpre.
      * destruct (truthy_int n); [apply Hpart|].
        apply bind_trace; [apply lift_trace|]. intros w _.
        destruct (truthy_float w); [apply Hpart | apply ret_trace].
      * destruct (truthy_int n); [apply Hpart|].
        rewrite bind_lift. destruct (subscript lwi k) as [w|e]; [|discriminate].
        destruct (truthy_float w); [apply Hpart|].
        simpl. intros s E. now injection E as <-.
    + split.
      * apply bind_trace; [apply fit_distribution_trace|]. intros cp _.
        apply bind_trace; [apply lift_trace|]. intros bf _.
        apply fills_untouched; [|exact Hst].
        intros s i Hs. now apply independent_fill_untouched.
      * intros st' E. apply snd_bind_ok in E as [cp [_ E]].
        rewrite bind_lift in E. destruct (BasicFit_of cp sample) as [bf|e]; [|discriminate].
        revert st' E. apply fills_untouched; [|exact Hst].
        intros s i Hs. now apply independent_fill_untouched.
    + split; [constructor | discriminate].
  - split; [constructor | discriminate].
Qed.

(** X20: no run of [_get_distribution] calls [curve_fit]: every path to the
    curve fit passes an [append_basic_fit] on the fresh [FitInspectionData]. *)
Theorem get_distribution_never_fits_a_curve (dimension : nat)
        (samples : list (list float)) (kwargs : dist_description) :
  Forall not_curve_fit (fst (_get_distribution dimension samples kwargs)).
Proof.
  unfold _get_distribution.
  apply bind_trace; [apply lift_trace|]. intros sample _.
  destruct (String.eqb _ "KernelDensity").
  - destruct (negb _); [apply raise_trace|].
    apply bind_trace; [apply fit_distribution_trace|]. intros; apply ret_trace.
  - apply bind_trace.
    + apply (for_each_invariant not_curve_fit untouched).
      * intros s x Hs. now apply slot_step_untouched.
      * repeat split. discriminate.
    + intros st _. apply bind_trace; [apply lift_trace|]. intros; apply ret_trace.
Qed.

(** X21: when [_get_distribution] returns for a family other than
    [KernelDensity], no parameter has been set and the inspection data is
    still the fresh object. *)
Theorem get_distribution_sets_no_parameter (dimension : nat)
        (samples : list (list float)) (kwargs : dist_description)
        (d : option distribution) (dep : list (option nat)) (o3 o4 : pyobj) :
  String.eqb (get (key_name kwargs) "Weibull") "KernelDensity" = false ->
  snd (_get_distribution dimension samples kwargs) = Ok (d, dep, o3, o4) ->
  make_distribution (get (key_name kwargs) "Weibull") [None; None; None] = Ok d
  /\ o3 = PyList [PyNone; PyNone; PyNone]
  /\ o4 = PyFitInspectionData FitInspectionData_init.
Proof.
  intros Hname. unfold _get_distribution. rewrite bind_lift.
  destruct (getitem samples dimension) as [sample|e]; [|discriminate].
  rewrite Hname. intro E. apply snd_bind_ok in E as [st [Hloop E]].
  assert (Hst : untouched st).
  { refine (proj2 (for_each_invariant not_curve_fit untouched _ _ _ _ _) st Hloop).
    - intros s x Hs. now apply slot_step_untouched.
    - repeat split. discriminate. }
  destruct Hst as (Hp & Hu & Hf & _). rewrite Hp, Hu, Hf, bind_lift in E.
  destruct (make_distribution _ _) as [dist|e]; [|discriminate].
  simpl in E. injection E as <- _ <- <-. auto.
Qed.

Lemma get_distribution_third_is_list dimension samples kwargs d dep o3 o4 :
  snd (_get_distribution dimension samples kwargs) = Ok (d, dep, o3, o4) ->
  exists l, o3 = PyList l.
Proof.
  unfold _get_distribution. rewrite bind_lift.
  destruct (getitem samples dimension) as [sample|e]; [|discriminate].
  destruct (String.eqb _ "KernelDensity").
  - destruct (negb _); [discriminate|].
    intro E. apply snd_bind_ok in E as [fp [_ E]]. simpl in E.
    injection E as _ _ <- _. eauto.
  - intro E. apply snd_bind_ok in E as [st [_ E]].
    rewrite bind_lift in E. destruct (make_distribution _ _); [|discriminate].
    simpl in E. injection E as _ _ <- _. eauto.
Qed.

(** [Fit.__init__] returns only for an empty sequence of samples: with at
    least one dimension, the object stored as fit inspection data is a
    list. *)
Theorem Fit_init_needs_no_dimension (samples : list (list float))
        (dist_descriptions : list dist_description) (fit : Fit) :
  Fit_init samples dist_descriptions = Ok fit -> samples = [].
Proof.
  destruct samples as [|s rest]; [reflexivity|].
  unfold Fit_init. cbn [List.length range Nat.sub seq apply_async_all].
  intro E. exfalso.
  destruct (getitem (broadcast_intervals dist_descriptions) 0) as [d0|e]; [|discriminate].
  cbn [rbind] in E.
  destruct (apply_async_all _ _ _) as [others|e]; [|discriminate].
  cbn [rbind collect] in E.
  destruct (collect_step _ _) as [st1|e] eqn:E1; [|discriminate].
  cbn [rbind] in E.
  destruct (collect st1 others) as [st|e] eqn:E2; [|discriminate].
  cbn [rbind] in E.
  apply collect_prefix in E2 as [more E2].
  unfold collect_step in E1.
  destruct (snd (_get_distribution 0 (s :: rest) d0)) as [[[[d dep] o3] o4]|e] eqn:Ew;
    [|discriminate].
  apply get_distribution_third_is_list in Ew as [l ->].
  cbn [rbind] in E1. destruct (save_used _ _ _); [|discriminate].
  cbn [rbind] in E1. injection E1 as <-. cbn in E2. rewrite E2 in E. discriminate.
Qed.

(** The first slot of a dependency with at least one slot is never filled:
    with at least one function the iteration for slot 0 raises. *)
Lemma first_slot_raises (sample : list float) (samples : list (list float)) (name : string)
      (dimension : nat) (d0 : option nat) (deps : list (option nat))
      (f0 : option string) (fs : list (option string))
      (lni : option (list (option Z))) (lwi : option (list (option float))) (st : locals) :
  untouched st ->
  exists e : exn,
    snd (slot_step sample samples name dimension (d0 :: deps) (f0 :: fs) lni lwi st 0) = Err e.
Proof.
  intros Hst. pose proof Hst as (Hp & Hu & Hf & Hm).
  unfold slot_step. rewrite Hp. cbn [getitem nth_error]. rewrite !bind_lift.
  cbn [List.length range Nat.sub seq for_each].
  destruct d0 as [k|].
  - rewrite bind_lift. destruct (subscript lni k) as [n|e]; [|simpl; eauto].
    assert (Hfill : forall s, untouched s ->
              exists e, snd (bind (dependent_fill name dimension (Some k :: deps) (f0 :: fs) 0 s 0)
                               (for_each (seq 1 (List.length fs))
                                  (dependent_fill name dimension (Some k :: deps) (f0 :: fs) 0)))
                        = Err e).
    { intros s (Hp' & Hu' & Hf' & Hm'). rewrite snd_bind.
      unfold dependent_fill. cbn [getitem nth_error]. rewrite !bind_lift.
      cbn [same_dependency option_nat_eqb]. rewrite Nat.eqb_refl.
      destruct (l_fitting s) as [f|] eqn:Hfit; [|simpl; eauto].
      rewrite bind_ret, Hf'. specialize (Hm' f eq_refl).
      destruct (multiple_basic_fit f) as [|bf rest]; [contradiction|].
      cbn [for_each]. rewrite bind_lift. simpl. eauto. }
    rewrite snd_bind.
    destruct (truthy_int n).
    + rewrite snd_bind.
      destruct (snd (_get_fitting_values sample samples name (Some k :: deps) 0 n None))
        as [f|e] eqn:Hg; [|simpl; eauto].
      cbn [ret snd]. apply Hfill. apply with_fitting_untouched; [exact Hst|].
      now apply get_fitting_values_fits in Hg.
    + rewrite bind_lift. destruct (subscript lwi k) as [w|e]; [|simpl; eauto].
      destruct (truthy_float w).
      * rewrite snd_bind.
        destruct (snd (_get_fitting_values sample samples name (Some k :: deps) 0 None w))
          as [f|e] eqn:Hg; [|simpl; eauto].
        cbn [ret snd]. apply Hfill. apply with_fitting_untouched; [exact Hst|].
        now apply get_fitting_values_fits in Hg.
      * cbn [ret snd]. now apply Hfill.
  - rewrite snd_bind.
    destruct (snd (_fit_distribution sample name)) as [cp|e]; [|simpl; eauto].
    rewrite bind_lift. destruct (BasicFit_of cp sample) as [bf|e]; [|simpl; eauto].
    rewrite snd_bind. unfold independent_fill. cbn [getitem nth_error].
    rewrite bind_lift, Hf. simpl. eauto.
Qed.

(** C9, at the code: for the family [Lognormal_2], a dependency with at
    least one slot and at least one function, every run of
    [_get_distribution] ends in an exception while slot 0 is processed, and
    never calls [curve_fit]: the statements that take the logarithm of the
    scale (for slot 2, after [append_basic_fit]) are not reached.  When
    slot 0 is independent the run consists of the lognormal fit of the whole
    sample, followed by the [AttributeError] of [append_basic_fit] on the
    fresh [FitInspectionData]. *)
Theorem lognormal_2_never_reaches_log_domain (dimension : nat)
        (samples : list (list float)) (kwargs : dist_description)
        (d0 : option nat) (deps : list (option nat))
        (f0 : option string) (fs : list (option string)) :
  get (key_name kwargs) "Weibull" = "Lognormal_2" ->
  get (key_dependency kwargs) no_dependency = d0 :: deps ->
  get (key_functions kwargs) [Some "polynomial"; Some "polynomial"; Some "polynomial"]
  = f0 :: fs ->
  Forall not_curve_fit (fst (_get_distribution dimension samples kwargs))
  /\ (exists e : exn, snd (_get_distribution dimension samples kwargs) = Err e)
  /\ (forall sample : list float,
         getitem samples dimension = Ok sample -> d0 = None ->
         _get_distribution dimension samples kwargs
         = ([Fitted lognorm sample],
            match lognorm_fit sample with
            | Ok _ => Err (Raise AttributeError "'NoneType' object has no attribute 'append'")
            | Err e => Err e
            end)).
Proof.
  intros Hname Hdep Hfun.
  assert (Hinit : untouched {| l_params := [None; None; None];
                               l_used_number_of_intervals := [None; None; None];
                               l_fit_inspection_data := FitInspectionData_init;
                               l_fitting := None |}).
  { repeat split. discriminate. }
  split; [|split].
  - unfold _get_distribution.
    apply bind_trace; [apply lift_trace|]. intros sample _.
    rewrite Hname. cbn [String.eqb Ascii.eqb Bool.eqb].
    apply bind_trace.
    + apply (for_each_invariant not_curve_fit untouched); [|exact Hinit].
      intros s x Hs. now apply slot_step_untouched.
    + intros st _. apply bind_trace; [apply lift_trace|]. intros; apply ret_trace.
  - unfold _get_distribution. rewrite bind_lift.
    destruct (getitem samples dimension) as [sample|e]; [|simpl; eauto].
    rewrite Hname, Hdep, Hfun. cbn [String.eqb Ascii.eqb Bool.eqb].
    cbn [List.length range Nat.sub seq for_each]. rewrite !snd_bind.
    destruct (first_slot_raises sample samples "Lognormal_2" dimension d0 deps f0 fs
                (key_list_number_of_intervals kwargs) (key_list_width_of_intervals kwargs)
                _ Hinit) as [e He].
    rewrite He. eauto.
  - intros sample Hsample ->. unfold _get_distribution.
    rewrite Hsample, bind_lift, Hname, Hdep, Hfun. cbn [String.eqb Ascii.eqb Bool.eqb].
    cbn [List.length range Nat.sub seq for_each].
    unfold slot_step. cbn [l_params getitem nth_error]. rewrite !bind_lift.
    unfold _fit_distribution. cbn [String.eqb Ascii.eqb Bool.eqb drop_last_two].
    simpl. destruct (lognorm_fit sample) as [[[c l] s]|e]; reflexivity.
Qed.

End Reach.

Lemma lognormal_2_never_reaches_log_domain_witness :
  Forall not_curve_fit
         (fst (@_get_distribution converging_at_once accepting 0 [[1; 2]%float]
                 (description "Lognormal_2" [None; None; None])))
  /\ (exists e : exn,
         snd (@_get_distribution converging_at_once accepting 0 [[1; 2]%float]
                (description "Lognormal_2" [None; None; None])) = Err e)
  /\ (forall sample : list float,
         getitem [[1; 2]%float] 0 = Ok sample -> @None nat = None ->
         @_get_distribution converging_at_once accepting 0 [[1; 2]%float]
           (description "Lognormal_2" [None; None; None])
         = ([Fitted lognorm sample],
            match @lognorm_fit converging_at_once sample with
            | Ok _ => Err (Raise AttributeError "'NoneType' object has no attribute 'append'")
            | Err e => Err e
            end)).
Proof.
  apply (@lognormal_2_never_reaches_log_domain converging_at_once accepting 0 [[1; 2]%float]
           (description "Lognormal_2" [None; None; None]) None [None; None]
           (Some "polynomial") [Some "polynomial"; Some "polynomial"]);
    reflexivity.
Defined.

(** * Further properties *)

(** ** [FitInspectionData]: appending and reading fits *)

Lemma getitem_app_last {A} (l : list A) (x : A) :
  getitem (l ++ [x]) (List.length l) = Ok x.
Proof.
  unfold getitem. rewrite nth_error_app2 by lia. now rewrite Nat.sub_diag.
Qed.

Lemma getitem_app_before {A} (l : list A) (x : A) (k : nat) :
  k < List.length l -> getitem (l ++ [x]) k = getitem l k.
Proof. intro Hk. unfold getitem. now rewrite nth_error_app1. Qed.

Lemma parameter_name_cases (p : string) :
  In p parameter_names -> p = "shape" \/ p = "loc" \/ p = "scale".
Proof. simpl. intuition. Qed.

(** X1: on an inspection object whose four lists for the parameter [p]
    exist and hold [n] entries each, [append_basic_fit(p, b)] succeeds and
    [get_basic_fit(p, n)] then returns [b]; the four lists have grown by
    the shape, location, scale and samples of [b]. *)
Theorem append_then_get (self : FitInspectionData) (p : string) (b : BasicFit)
        (shapes locs scales : list param) (raw : list (list float)) (n : nat) :
  In p parameter_names ->
  value_lists self p = [Some shapes; Some locs; Some scales] ->
  sample_lists self p = Some raw ->
  List.length shapes = n -> List.length locs = n -> List.length scales = n ->
  List.length raw = n ->
  exists self' : FitInspectionData,
    append_basic_fit self p b = Ok self'
    /\ get_basic_fit self' p n = Ok b
    /\ value_lists self' p
       = [Some (shapes ++ [shape b]); Some (locs ++ [loc b]); Some (scales ++ [scale b])]
    /\ sample_lists self' p = Some (raw ++ [samples b]).
Proof.
  intros Hp Hv Hs H0 H1 H2 H3.
  apply parameter_name_cases in Hp as [-> | [-> | ->]];
    unfold value_lists, sample_lists in Hv, Hs; simpl in Hv, Hs;
    unfold append_basic_fit; simpl String.eqb; cbv iota;
    rewrite Hv, Hs; simpl;
    eexists; (split; [reflexivity|]);
    unfold get_basic_fit, value_at, value_lists, sample_lists; simpl;
    rewrite <- H0 at 1; rewrite getitem_app_last; simpl;
    rewrite <- H1 at 1; rewrite getitem_app_last; simpl;
    rewrite <- H2 at 1; rewrite getitem_app_last; simpl;
    rewrite <- H3 at 1; rewrite getitem_app_last; simpl;
    destruct b; auto.
Qed.

Lemma append_then_get_witness :
  exists self' : FitInspectionData,
    append_basic_fit one_fit_recorded "loc" (interval_fit 9%float [3; 4]%float) = Ok self'
    /\ get_basic_fit self' "loc" 1 = Ok (interval_fit 9%float [3; 4]%float)
    /\ value_lists self' "loc"
       = [Some ([ConstantParam 1.5%float] ++ [shape (interval_fit 9%float [3; 4]%float)]);
          Some ([ConstantParam 0%float] ++ [loc (interval_fit 9%float [3; 4]%float)]);
          Some ([ConstantParam 3%float] ++ [scale (interval_fit 9%float [3; 4]%float)])]
    /\ sample_lists self' "loc"
       = Some ([[1; 2]%float] ++ [samples (interval_fit 9%float [3; 4]%float)]).
Proof.
  apply (append_then_get one_fit_recorded "loc" (interval_fit 9%float [3; 4]%float)
           [ConstantParam 1.5%float] [ConstantParam 0%float] [ConstantParam 3%float]
           [[1; 2]%float] 1).
  - simpl. right. left. reflexivity.
  - reflexivity.
  - reflexivity.
  - reflexivity.
  - reflexivity.
  - reflexivity.
  - reflexivity.
Defined.


(** X2: for a parameter name other than ['shape'], ['loc'] and ['scale'],
    [append_basic_fit] and [get_basic_fit] raise
    [ValueError("Parameter '<name>' is unknown.")], whatever the object
    holds. *)
Theorem unknown_parameter_raises (self : FitInspectionData) (p : string) (b : BasicFit)
        (index : nat) :
  ~ In p parameter_names ->
  append_basic_fit self p b
  = Err (Raise ValueError ("Parameter '" ++ p ++ "' is unknown.")%string)
  /\ get_basic_fit self p index
     = Err (Raise ValueError ("Parameter '" ++ p ++ "' is unknown.")%string).
Proof.
  intro Hp. simpl in Hp.
  assert (H1 : String.eqb p "shape" = false) by (apply String.eqb_neq; intuition).
  assert (H2 : String.eqb p "loc" = false) by (apply String.eqb_neq; intuition).
  assert (H3 : String.eqb p "scale" = false) by (apply String.eqb_neq; intuition).
  unfold append_basic_fit, get_basic_fit. rewrite H1, H2, H3. split; reflexivity.
Qed.

Lemma unknown_parameter_raises_witness :
  append_basic_fit one_fit_recorded "mu" (interval_fit 9%float [3; 4]%float)
  = Err (Raise ValueError "Parameter 'mu' is unknown.")
  /\ get_basic_fit one_fit_recorded "mu" 0
     = Err (Raise ValueError "Parameter 'mu' is unknown.").
Proof.
  apply (unknown_parameter_raises one_fit_recorded "mu" (interval_fit 9%float [3; 4]%float) 0).
  simpl. intros [E | [E | [E | []]]]; discriminate.
Defined.


Lemma rbind_ok {A B} (r : result A) (k : A -> result B) (b : B) :
  rbind r k = Ok b -> exists a, r = Ok a /\ k a = Ok b.
Proof. destruct r as [a|e]; simpl; [eauto | discriminate]. Qed.

(** X3: appending a fit for [p] does not change what [get_basic_fit]
    returns for [p] at an index that was already filled. *)
Theorem append_keeps_earlier_fits (self self' : FitInspectionData) (p : string)
        (b : BasicFit) (shapes locs scales : list param) (raw : list (list float))
        (k : nat) :
  In p parameter_names ->
  value_lists self p = [Some shapes; Some locs; Some scales] ->
  sample_lists self p = Some raw ->
  k < List.length shapes -> k < List.length locs -> k < List.length scales ->
  k < List.length raw ->
  append_basic_fit self p b = Ok self' ->
  get_basic_fit self' p k = get_basic_fit self p k.
Proof.
  intros Hp Hv Hs H0 H1 H2 H3.
  apply parameter_name_cases in Hp as [-> | [-> | ->]];
    unfold value_lists, sample_lists in Hv, Hs; simpl in Hv, Hs;
    unfold append_basic_fit; simpl String.eqb; cbv iota;
    rewrite Hv, Hs; simpl; intro E; injection E as <-;
    unfold get_basic_fit, value_at; simpl; rewrite Hv, Hs; simpl;
    rewrite !getitem_app_before by assumption; reflexivity.
Qed.

Lemma append_keeps_earlier_fits_witness :
  exists self' : FitInspectionData,
    append_basic_fit one_fit_recorded "scale" (interval_fit 9%float [3; 4]%float) = Ok self'
    /\ get_basic_fit self' "scale" 0 = get_basic_fit one_fit_recorded "scale" 0.
Proof.
  eexists. split; [reflexivity|].
  apply (append_keeps_earlier_fits one_fit_recorded _ "scale"
           (interval_fit 9%float [3; 4]%float)
           [ConstantParam 1.5%float] [ConstantParam 0%float] [ConstantParam 3%float]
           [[1; 2]%float] 0).
  - simpl. right. right. left. reflexivity.
  - reflexivity.
  - reflexivity.
  - simpl. lia.
  - simpl. lia.
  - simpl. lia.
  - simpl. lia.
  - reflexivity.
Defined.


(** X4: a successful [append_basic_fit] for [p] leaves the fits of the two
    other parameters and [used_number_of_intervals] as they were. *)
Theorem append_leaves_other_parameters (self self' : FitInspectionData) (p q : string)
        (b : BasicFit) (k : nat) :
  In q parameter_names -> q <> p ->
  append_basic_fit self p b = Ok self' ->
  get_basic_fit self' q k = get_basic_fit self q k
  /\ used_number_of_intervals self' = used_number_of_intervals self.
Proof.
  intros Hq Hne. unfold append_basic_fit.
  destruct (String.eqb p "shape") eqn:E1; [apply String.eqb_eq in E1; subst p|
  destruct (String.eqb p "loc") eqn:E2; [apply String.eqb_eq in E2; subst p|
  destruct (String.eqb p "scale") eqn:E3; [apply String.eqb_eq in E3; subst p|discriminate]]];
    intro E;
    apply rbind_ok in E as (v0 & _ & E);
    apply rbind_ok in E as (v1 & _ & E);
    apply rbind_ok in E as (v2 & _ & E);
    apply rbind_ok in E as (s & _ & E);
    injection E as <-;
    apply parameter_name_cases in Hq as [-> | [-> | ->]];
    try contradiction; split; reflexivity.
Qed.

Lemma append_leaves_other_parameters_witness :
  exists self' : FitInspectionData,
    append_basic_fit one_fit_recorded "shape" (interval_fit 9%float [3; 4]%float) = Ok self'
    /\ get_basic_fit self' "scale" 0 = get_basic_fit one_fit_recorded "scale" 0
    /\ used_number_of_intervals self' = used_number_of_intervals one_fit_recorded.
Proof.
  eexists. split; [reflexivity|].
  apply (append_leaves_other_parameters one_fit_recorded _ "shape" "scale"
           (interval_fit 9%float [3; 4]%float) 0).
  - simpl. right. right. left. reflexivity.
  - discriminate.
  - reflexivity.
Defined.


Lemma setitem_getitem_other {A} (l l' : list A) (i j : nat) (x : A) :
  setitem l i x = Ok l' -> j <> i -> getitem l' j = getitem l j.
Proof.
  revert l' i j. induction l as [|h t IH]; intros l' [|i] [|j] E Hne;
    simpl in E; try discriminate; try contradiction.
  - now injection E as <-.
  - destruct (setitem t i x) as [t'|e]; [|discriminate]. now injection E as <-.
  - destruct (setitem t i x) as [t'|e] eqn:Et; [|discriminate].
    injection E as <-. unfold getitem in *. simpl. apply (IH t' i j Et). congruence.
Qed.

Lemma append_at_spec (v v' : list (option (list param))) (k : nat) (x : param) :
  append_at v k x = Ok v' ->
  exists old, getitem v k = Ok (Some old)
              /\ getitem v' k = Ok (Some (old ++ [x]))
              /\ forall j, j <> k -> getitem v' j = getitem v j.
Proof.
  unfold append_at. intro E.
  apply rbind_ok in E as (l & Hl & E).
  apply rbind_ok in E as (l' & Hl' & E).
  destruct l as [old|]; simpl in Hl'; [|discriminate]. injection Hl' as <-.
  exists old. split; [exact Hl|]. split.
  - now apply setitem_getitem in E.
  - intros j Hj. now apply setitem_getitem_other with (j := j) in E.
Qed.

(** X5: after a successful [append_basic_fit] the property of the same
    name has grown by the matching component of the fit: [shape_value] by
    its shape, [loc_value] by its location, [scale_value] by its scale. *)
Theorem value_properties_after_append (self self' : FitInspectionData) (b : BasicFit) :
  (append_basic_fit self "shape" b = Ok self' ->
   exists old, shape_value self = Ok (Some old)
               /\ shape_value self' = Ok (Some (old ++ [shape b])))
  /\ (append_basic_fit self "loc" b = Ok self' ->
      exists old, loc_value self = Ok (Some old)
                  /\ loc_value self' = Ok (Some (old ++ [loc b])))
  /\ (append_basic_fit self "scale" b = Ok self' ->
      exists old, scale_value self = Ok (Some old)
                  /\ scale_value self' = Ok (Some (old ++ [scale b]))).
Proof.
  unfold append_basic_fit, shape_value, loc_value, scale_value. simpl String.eqb. cbv iota.
  repeat split; intro E;
    apply rbind_ok in E as (v0 & E0 & E);
    apply rbind_ok in E as (v1 & E1 & E);
    apply rbind_ok in E as (v2 & E2 & E);
    apply rbind_ok in E as (s & _ & E);
    injection E as <-; simpl;
    apply append_at_spec in E0 as (o0 & G0 & G0' & F0);
    apply append_at_spec in E1 as (o1 & G1 & G1' & F1);
    apply append_at_spec in E2 as (o2 & G2 & G2' & F2).
  - exists o0. split; [exact G0|]. rewrite (F2 0), (F1 0) by lia. exact G0'.
  - exists o1. split.
    + rewrite <- (F0 1) by lia. exact G1.
    + rewrite (F2 1) by lia. exact G1'.
  - exists o2. split.
    + rewrite <- (F0 2), <- (F1 2) by lia. exact G2.
    + exact G2'.
Qed.

Lemma value_properties_after_append_witness :
  exists self' : FitInspectionData,
    append_basic_fit one_fit_recorded "loc" (interval_fit 9%float [3; 4]%float) = Ok self'
    /\ exists old,
         loc_value one_fit_recorded = Ok (Some old)
         /\ loc_value self' = Ok (Some (old ++ [loc (interval_fit 9%float [3; 4]%float)])).
Proof.
  eexists. split; [reflexivity|].
  apply (proj1 (proj2 (value_properties_after_append one_fit_recorded _
                         (interval_fit 9%float [3; 4]%float)))).
  reflexivity.
Defined.

(** ** The marginal fitter, the curve fit and the distribution of work *)

Section Estimators.

Context `{Scipy} `{Distributions}.

(** X6: for a function name other than ['f1'] and ['f2'] (the default
    ['polynomial'] of [_get_distribution] is one), the curve fit statement
    raises [ValueError("Function '<name>' is unknown.")]; [curve_fit] is not
    called and no warning is issued. *)
Theorem unknown_function_is_not_fitted (name : string) (dimension i : nat)
        (function_name : string) (centers fit_points : list float) :
  function_name <> "f1" -> function_name <> "f2" ->
  fit_curve name dimension i (Some function_name) centers fit_points
  = ([], Err (Raise ValueError ("Function '" ++ function_name ++ "' is unknown.")%string)).
Proof.
  intros H1 H2. unfold fit_curve, _get_function.
  apply String.eqb_neq in H1, H2. rewrite H1, H2. reflexivity.
Qed.

(** X7: when the first [curve_fit] returns, or raises an exception that is
    not a [RuntimeError], there is no warning and no second call: the
    outcome of the statement is the outcome of that call. *)
Theorem only_RuntimeError_is_retried (name : string) (dimension i : nat)
        (function_name : option string) (centers fit_points : list float)
        (f : option dep_function) :
  _get_function function_name = Ok f ->
  (forall e, curve_fit f centers fit_points None = Err e ->
             isinstance e RuntimeError = false) ->
  fit_curve name dimension i function_name centers fit_points
  = ([CurveFitted f centers fit_points None], curve_fit f centers fit_points None).
Proof.
  intros Hf Hcls. unfold fit_curve. rewrite Hf. simpl.
  destruct (curve_fit f centers fit_points None) as [popt|e] eqn:E; simpl.
  - reflexivity.
  - now rewrite (Hcls e eq_refl).
Qed.

(** X8: every family name made of ['Lognormal'] and two more characters is
    handed to the lognormal estimator, whatever the two characters are. *)
Theorem lognormal_prefix_is_fitted (sample : list float) (c1 c2 : ascii) :
  _fit_distribution sample ("Lognormal" ++ String c1 (String c2 ""))%string
  = ([Fitted lognorm sample],
     match lognorm_fit sample with
     | Ok (c, l, s) => Ok (Params (ConstantParam c) (ConstantParam l) (ConstantParam s))
     | Err e => Err e
     end).
Proof.
  unfold _fit_distribution. simpl.
  destruct (lognorm_fit sample) as [[[c l] s]|e]; reflexivity.
Qed.

(** X9: a family name that no branch of [_fit_distribution] recognises ends
    in [UnboundLocalError] for [params]; no estimator is called. *)
Theorem unrecognised_family_is_unbound (sample : list float) (name : string) :
  name <> "Weibull" -> name <> "Normal" -> drop_last_two name <> "Lognormal" ->
  name <> "KernelDensity" ->
  _fit_distribution sample name
  = ([], Err (Raise UnboundLocalError
                "local variable 'params' referenced before assignment")).
Proof.
  intros H1 H2 H3 H4. unfold _fit_distribution.
  apply String.eqb_neq in H1, H2, H3, H4. now rewrite H1, H2, H3, H4.
Qed.

Lemma apply_async_all_short (samples : list (list float))
      (dist_descriptions : list dist_description) (dimensions : list nat) :
  (exists d, In d dimensions /\ List.length dist_descriptions <= d) ->
  apply_async_all samples dist_descriptions dimensions
  = Err (Raise IndexError "list index out of range").
Proof.
  induction dimensions as [|d rest IH]; intros [k [Hin Hk]]; [contradiction|].
  cbn [apply_async_all]. unfold getitem at 1.
  destruct (nth_error dist_descriptions d) as [desc|] eqn:Hd; [|reflexivity].
  cbn [rbind]. destruct Hin as [->|Hin].
  - apply nth_error_None in Hk. congruence.
  - rewrite IH by eauto. reflexivity.
Qed.

Lemma broadcast_length (ds : list dist_description) :
  List.length (broadcast_intervals ds) = List.length ds.
Proof. unfold broadcast_intervals. apply length_map. Qed.

(** X10: with fewer descriptions than samples, [Fit.__init__] raises
    [IndexError] while it distributes the work, whatever the workers do. *)
Theorem too_few_descriptions (samples : list (list float))
        (dist_descriptions : list dist_description) :
  List.length dist_descriptions < List.length samples ->
  Fit_init samples dist_descriptions = Err (Raise IndexError "list index out of range").
Proof.
  intro Hlt. unfold Fit_init. rewrite apply_async_all_short; [reflexivity|].
  exists (List.length dist_descriptions). split.
  - unfold range. apply in_seq. lia.
  - now rewrite broadcast_length.
Qed.

End Estimators.

Lemma unknown_function_is_not_fitted_witness :
  @fit_curve converging_at_once "Weibull" 1 2 (Some "polynomial")
             [0.5; 1.5; 2.5]%float [7; 8; 9]%float
  = ([], Err (Raise ValueError "Function 'polynomial' is unknown.")).
Proof.
  apply (@unknown_function_is_not_fitted converging_at_once "Weibull" 1 2 "polynomial"
           [0.5; 1.5; 2.5]%float [7; 8; 9]%float); discriminate.
Defined.

Lemma only_RuntimeError_is_retried_witness :
  @fit_curve converging_at_once "Weibull" 1 2 (Some "f1")
             [0.5; 1.5; 2.5]%float [7; 8; 9]%float
  = ([CurveFitted (Some _f1) [0.5; 1.5; 2.5]%float [7; 8; 9]%float None],
     Ok (0.1, 1.5, 0.2)%float).
Proof.
  apply (@only_RuntimeError_is_retried converging_at_once "Weibull" 1 2 (Some "f1")
           [0.5; 1.5; 2.5]%float [7; 8; 9]%float (Some _f1)).
  - reflexivity.
  - discriminate.
Defined.

Lemma unrecognised_family_is_unbound_witness :
  @_fit_distribution converging_at_once [1; 2]%float "Gamma"
  = ([], Err (Raise UnboundLocalError
                "local variable 'params' referenced before assignment")).
Proof.
  apply (@unrecognised_family_is_unbound converging_at_once [1; 2]%float "Gamma");
    discriminate.
Defined.

Lemma too_few_descriptions_witness :
  @Fit_init converging_at_once accepting [[1; 2]%float; [3; 4]%float]
            [description "KernelDensity" [None; None; None]]
  = Err (Raise IndexError "list index out of range").
Proof.
  apply (@too_few_descriptions converging_at_once accepting [[1; 2]%float; [3; 4]%float]
           [description "KernelDensity" [None; None; None]]).
  simpl. lia.
Defined.

(** ** The defaulting loop and the broadcast of the interval settings *)

Theorem default_used_on_records (records : list FitInspectionData) :
  default_used (map PyFitInspectionData records)
  = Ok (map (fun d =>
               PyFitInspectionData
                 (if falsy (used_number_of_intervals d)
                  then set_used_number_of_intervals d (Some 1)
                  else d))
            records).
Proof.
  induction records as [|d records IH]; [reflexivity|].
  cbn [map default_used py_get_used_number_of_intervals rbind].
  destruct (falsy (used_number_of_intervals d));
    cbn [py_set_used_number_of_intervals rbind]; rewrite IH; reflexivity.
Qed.

(** X11: on a list of [FitInspectionData] objects the loop that defaults
    [used_number_of_intervals] never fails and returns as many objects;
    afterwards none has an unset or zero [used_number_of_intervals]: value 1
    is written where it was unset or zero, and the other objects are
    unchanged. *)
Theorem default_used_result (records : list FitInspectionData) :
  exists out : list FitInspectionData,
    default_used (map PyFitInspectionData records) = Ok (map PyFitInspectionData out)
    /\ List.length out = List.length records
    /\ Forall2 (fun d d' =>
                  falsy (used_number_of_intervals d') = false
                  /\ (falsy (used_number_of_intervals d) = false -> d' = d)
                  /\ (falsy (used_number_of_intervals d) = true ->
                      d' = set_used_number_of_intervals d (Some 1)))
               records out.
Proof.
  exists (map (fun d => if falsy (used_number_of_intervals d)
                        then set_used_number_of_intervals d (Some 1) else d) records).
  split; [|split].
  - rewrite default_used_on_records, map_map. apply f_equal, map_ext.
    intro d. now destruct (falsy (used_number_of_intervals d)).
  - apply length_map.
  - induction records as [|d records IH]; simpl; constructor; [|exact IH].
    destruct (falsy (used_number_of_intervals d)) eqn:Hf; repeat split; auto; discriminate.
Qed.

Lemma getitem_map {A B} (f : A -> B) (l : list A) (i : nat) (b : B) :
  getitem (map f l) i = Ok b -> exists a, getitem l i = Ok a /\ b = f a.
Proof.
  unfold getitem. rewrite nth_error_map.
  destruct (nth_error l i) as [a|]; simpl; [|discriminate].
  intro E. injection E as <-. eauto.
Qed.

(** X12: after the two loops at the start of [Fit.__init__], the
    description of any dimension holds, at position [k] of its two lists,
    the [number_of_intervals] and the [width_of_intervals] given in the
    description of dimension [k]. *)
Theorem broadcast_lookup (dist_descriptions : list dist_description)
        (dimension k : nat) (own other : dist_description) :
  getitem (broadcast_intervals dist_descriptions) dimension = Ok own ->
  getitem dist_descriptions k = Ok other ->
  subscript (key_list_number_of_intervals own) k = Ok (key_number_of_intervals other)
  /\ subscript (key_list_width_of_intervals own) k = Ok (key_width_of_intervals other).
Proof.
  unfold broadcast_intervals. intros Hown Hother.
  apply getitem_map in Hown as (d & _ & ->). simpl.
  unfold getitem in *. rewrite !nth_error_map.
  destruct (nth_error dist_descriptions k) as [o|]; [|discriminate].
  injection Hother as <-. auto.
Qed.

Lemma broadcast_lookup_witness :
  exists own : dist_description,
    getitem (broadcast_intervals [wave_height_description; peak_period_description]) 1
    = Ok own
    /\ subscript (key_list_number_of_intervals own) 0
       = Ok (key_number_of_intervals wave_height_description)
    /\ subscript (key_list_width_of_intervals own) 0
       = Ok (key_width_of_intervals wave_height_description).
Proof.
  eexists. split; [reflexivity|].
  apply (broadcast_lookup [wave_height_description; peak_period_description] 1 0 _
           wave_height_description).
  - reflexivity.
  - reflexivity.
Defined.

(** ** What a partition returns *)

(** The intervals computed from a number [n] of intervals: [n] centers and
    the width [max(covariate) / n], a quotient of doubles. *)
Lemma compute_intervals_count (samples : list (list float)) (dependency : list (option nat))
      (index : nat) (n : Z) (bw : option float) (centers : list float) (w : float)
      (column : list float) (stop : float) :
  n <> 0%Z ->
  dependent_column samples dependency index = Ok column ->
  py_max column = Ok stop ->
  compute_intervals samples dependency index (Some n) bw = Ok (centers, w) ->
  (0 < n)%Z
  /\ w = ((stop * 1 - 0) / Z2F n)%float
  /\ List.length centers = Z.to_nat n.
Proof.
  intros Hn Hcol Hmax. unfold compute_intervals.
  apply Z.eqb_neq in Hn. rewrite Hn. cbn [negb]. rewrite Hcol. cbn [rbind].
  rewrite Hmax. cbn [rbind]. unfold linspace.
  destruct (n <? 0)%Z eqn:Hneg; [discriminate|].
  apply Z.ltb_ge in Hneg. apply Z.eqb_neq in Hn.
  assert (Hpos : (0 <? n)%Z = true) by (apply Z.ltb_lt; lia).
  rewrite Hpos. cbn [rbind].
  intro E. injection E as <- <-. split; [lia|]. split; [reflexivity|].
  destruct (_ =? 0)%float; now rewrite !length_map, length_seq.
Qed.

(** What one iteration does to the parameter lists. *)
Lemma append_one_spec (cp : fit_result) (dependency : list (option nat)) (index : nat)
      (pv pv' : list (list param)) (i : nat) :
  snd (append_one cp dependency index pv i) = Ok pv' ->
  (forall j, j <> i -> getitem pv' j = getitem pv j)
  /\ exists di dx,
       getitem dependency i = Ok di /\ getitem dependency index = Ok dx
       /\ if same_dependency di dx
          then exists old c, getitem pv i = Ok old /\ current_param cp i = Ok c
                             /\ getitem pv' i = Ok (old ++ [c])
          else pv' = pv.
Proof.
  unfold append_one. rewrite bind_lift.
  destruct (getitem dependency i) as [di|e]; [|discriminate].
  rewrite bind_lift. destruct (getitem dependency index) as [dx|e]; [|discriminate].
  destruct (same_dependency di dx) eqn:Hsame.
  - rewrite bind_lift. destruct (getitem pv i) as [old|e]; [|discriminate].
    rewrite bind_lift. destruct (current_param cp i) as [c|e]; [|discriminate].
    simpl. intro E. split.
    + intros j Hj. now apply setitem_getitem_other with (j := j) in E.
    + exists di, dx. rewrite Hsame. repeat split. exists old, c.
      repeat split. now apply setitem_getitem in E.
  - simpl. intro E. injection E as <-. split; [reflexivity|].
    exists di, dx. rewrite Hsame. auto.
Qed.

Lemma append_loop_spec (cp : fit_result) (dependency : list (option nat)) (index : nat)
      (l : list nat) :
  NoDup l ->
  forall pv pv',
    snd (for_each l (append_one cp dependency index) pv) = Ok pv' ->
    (forall j, ~ In j l -> getitem pv' j = getitem pv j)
    /\ forall j, In j l ->
         exists dj dx,
           getitem dependency j = Ok dj /\ getitem dependency index = Ok dx
           /\ if same_dependency dj dx
              then exists old c, getitem pv j = Ok old /\ current_param cp j = Ok c
                                 /\ getitem pv' j = Ok (old ++ [c])
              else getitem pv' j = getitem pv j.
Proof.
  induction 1 as [|i l Hni Hnd IH]; intros pv pv' E.
  - simpl in E. injection E as <-. split; [reflexivity | contradiction].
  - cbn [for_each] in E. apply snd_bind_ok in E as (pv1 & E1 & E2).
    apply append_one_spec in E1 as (Hother & di & dx & Hdi & Hdx & Hcase).
    apply IH in E2 as (Hout & Hin). split.
    + intros j Hj. simpl in Hj. rewrite Hout by tauto. apply Hother. intuition.
    + intros j [<- | Hj].
      * exists di, dx. split; [exact Hdi|]. split; [exact Hdx|].
        rewrite (Hout i Hni).
        destruct (same_dependency di dx); [exact Hcase | now subst pv1].
      * destruct (Hin j Hj) as (dj & dx' & Hdj & Hdx' & Hc).
        exists dj, dx'. split; [exact Hdj|]. split; [exact Hdx'|].
        assert (Hji : j <> i) by (intro; subst; contradiction).
        rewrite <- (Hother j Hji). exact Hc.
Qed.

Lemma getitem_lt {A} (l : list A) (i : nat) (a : A) :
  getitem l i = Ok a -> i < List.length l.
Proof.
  unfold getitem. destruct (nth_error l i) eqn:E; [|discriminate].
  intros _. apply nth_error_Some. congruence.
Qed.

Section Partition.

Context `{Scipy}.

(** X16: a partition with a given number [n] of intervals that returns,
    without a failed per-interval fit, uses the width [max(covariate) / n],
    a quotient of doubles, and returns [n] interval centers minus one for
    every candidate interval with fewer than 10 samples. *)
Theorem center_count_fixed_number (sample : list float) (samples : list (list float))
        (name : string) (dependency : list (option nat)) (index : nat) (n : Z)
        (bw : option float) (column : list float) (stop : float)
        (centers : list float) (w : float) (t : list event) (p : partition) :
  n <> 0%Z ->
  dependent_column samples dependency index = Ok column ->
  py_max column = Ok stop ->
  compute_intervals samples dependency index (Some n) bw = Ok (centers, w) ->
  _get_fitting_values sample samples name dependency index (Some n) bw = (t, Ok p) ->
  no_fit_failure t = true ->
  w = ((stop * 1 - 0) / Z2F n)%float
  /\ Z.of_nat (List.length (interval_centers p))
     = (n - Z.of_nat (underpopulated (sort_rows (combine sample column)) w centers))%Z.
Proof.
  intros Hn Hcol Hmax Hci Hrun Hno.
  destruct (compute_intervals_count _ _ _ _ _ _ _ _ _ Hn Hcol Hmax Hci) as (Hpos & Hw & Hlen).
  split; [exact Hw|].
  unfold _get_fitting_values in Hrun. rewrite Hci, Hcol in Hrun.
  rewrite !bind_lift in Hrun. unfold stack_T in Hrun.
  destruct (List.length sample =? List.length column); [|discriminate].
  apply bind_ok_inv in Hrun as (t1 & st & t2 & Hloop & Hend & ->).
  apply no_fit_failure_app in Hno as [Hno _].
  destruct (List.length (interval_centers st) <? 3) eqn:H3; [discriminate|].
  injection Hend as _ <-.
  unfold enumerate in Hloop.
  apply partition_loop_count in Hloop; [|exact Hno].
  cbn [interval_centers] in Hloop.
  lia.
Qed.

Lemma append_params_inv (name : string) (pv pv' : list (list param))
      (dependency : list (option nat)) (index : nat) (fv : list float) (bf : BasicFit) :
  snd (_append_params name pv dependency index fv) = Ok (pv', bf) ->
  exists a b c,
    snd (_fit_distribution fv name) = Ok (Params a b c)
    /\ bf = mkBasicFit a b c fv
    /\ snd (for_each (range index (List.length dependency))
                     (append_one (Params a b c) dependency index) pv) = Ok pv'.
Proof.
  unfold _append_params. intro E.
  apply snd_bind_ok in E as (cp & Hcp & E).
  rewrite bind_lift in E. destruct cp as [a b c|cdf icdf]; simpl BasicFit_of in E;
    [|discriminate].
  cbv iota beta in E.
  apply snd_bind_ok in E as (pv1 & Hloop & E). simpl in E. injection E as <- <-.
  exists a, b, c. repeat split; [exact Hcp | exact Hloop].
Qed.

Lemma range_NoDup (a b : nat) : NoDup (range a b).
Proof. apply seq_NoDup. Qed.

Lemma in_range (a b j : nat) : In j (range a b) <-> a <= j < b.
Proof. unfold range. rewrite in_seq. lia. Qed.

Lemma append_params_result (name : string) (pv pv' : list (list param))
        (dependency : list (option nat)) (index : nat) (fv : list float) (bf : BasicFit) :
  snd (_append_params name pv dependency index fv) = Ok (pv', bf) ->
  samples bf = fv
  /\ snd (_fit_distribution fv name) = Ok (Params (shape bf) (loc bf) (scale bf))
  /\ (forall j, j < index \/ List.length dependency <= j -> getitem pv' j = getitem pv j)
  /\ (forall j, index <= j < List.length dependency ->
        exists dj dx,
          getitem dependency j = Ok dj /\ getitem dependency index = Ok dx
          /\ if same_dependency dj dx
             then exists old c,
                 getitem pv j = Ok old
                 /\ current_param (Params (shape bf) (loc bf) (scale bf)) j = Ok c
                 /\ getitem pv' j = Ok (old ++ [c])
             else getitem pv' j = getitem pv j).
Proof.
  intro E. apply append_params_inv in E as (a & b & c & Hfit & -> & Hloop).
  apply append_loop_spec in Hloop as [Hout Hin]; [|apply range_NoDup].
  simpl. repeat split; [exact Hfit | |].
  - intros j Hj. apply Hout. rewrite in_range. lia.
  - intros j Hj. apply Hin. now apply in_range.
Qed.

(** X17: when [_append_params] returns, the [BasicFit] carries the fitted
    values and the three parameters of the fit; to the parameter list of
    every slot from [index] on whose dependency is that of slot [index] the
    parameter of that slot has been appended, and every other parameter
    list is unchanged. *)
Theorem append_params_spec (name : string) (pv pv' : list (list param))
        (dependency : list (option nat)) (index : nat) (fv : list float) (bf : BasicFit) :
  snd (_append_params name pv dependency index fv) = Ok (pv', bf) ->
  samples bf = fv
  /\ snd (_fit_distribution fv name) = Ok (Params (shape bf) (loc bf) (scale bf))
  /\ (forall j, j < index \/ List.length dependency <= j -> getitem pv' j = getitem pv j)
  /\ (forall j, index <= j < List.length dependency ->
        exists dj dx,
          getitem dependency j = Ok dj /\ getitem dependency index = Ok dx
          /\ if same_dependency dj dx
             then exists old c,
                 getitem pv j = Ok old
                 /\ current_param (Params (shape bf) (loc bf) (scale bf)) j = Ok c
                 /\ getitem pv' j = Ok (old ++ [c])
             else getitem pv' j = getitem pv j).
Proof.
  intro E. apply append_params_inv in E as (a & b & c & Hfit & -> & Hloop).
  apply append_loop_spec in Hloop as [Hout Hin]; [|apply range_NoDup].
  simpl. repeat split; [exact Hfit | |].
  - intros j Hj. apply Hout. rewrite in_range. lia.
  - intros j Hj. apply Hin. now apply in_range.
Qed.

Lemma partition_step_lists_agree (sorted : list (float * float)) (w : float)
      (name : string) (dependency : list (option nat)) (index : nat)
      (st : partition) (i_step : nat * float) (st' : partition) :
  lists_agree dependency index st ->
  snd (partition_step sorted w name dependency index st i_step) = Ok st' ->
  lists_agree dependency index st'.
Proof.
  intros (Hs & Hmin & Hslots). unfold partition_step. destruct i_step as [i step].
  assert (Hdrop : forall wn,
    snd (bind (lift (np_delete (interval_centers st) i))
           (fun centers =>
              bind (lift (getitem dependency index))
                (fun d => bind (warn (wn d))
                   (fun _ => ret {| interval_centers := centers;
                                    dist_values := dist_values st;
                                    param_values := param_values st;
                                    multiple_basic_fit := multiple_basic_fit st |}))))
    = Ok st' -> lists_agree dependency index st').
  { intros wn. rewrite bind_lift.
    destruct (np_delete (interval_centers st) i) as [centers|e]; [|discriminate].
    rewrite bind_lift.
    destruct (getitem dependency index) as [d|e] eqn:Hd; [|discriminate].
    simpl. intro E. injection E as <-. unfold lists_agree. simpl.
    split; [exact Hs|]. split; [exact Hmin|].
    intros j dj dx l Hj Hdj Hdx. rewrite Hd in Hdx. now apply (Hslots j dj dx l). }
  destruct (MIN_DATA_POINTS_FOR_FIT <=? _) eqn:Hlen.
  - unfold try_except.
    destruct (_append_params _ _ _ _ _) as [ta [[pv bf]|e]] eqn:Happ.
    + simpl. intro E. injection E as <-.
      assert (Happ' : snd (_append_params name (param_values st) dependency index
                             (fitting_values_at sorted step w)) = Ok (pv, bf))
        by now rewrite Happ.
      apply append_params_result in Happ' as (Hbf & _ & _ & Hin).
      repeat split; cbn [multiple_basic_fit dist_values param_values].
      * now rewrite map_app, Hs, <- Hbf.
      * apply Forall_app. split; [exact Hmin|]. constructor; [|constructor].
        now apply Nat.leb_le.
      * intros j dj dx l Hj Hdj Hdx Hsame Hl.
        destruct (Hin j) as (dj' & dx' & Hdj' & Hdx' & Hcase).
        { split; [exact Hj|]. now apply getitem_lt in Hdj. }
        assert (dj' = dj) by congruence. assert (dx' = dx) by congruence. subst.
        rewrite Hsame in Hcase. destruct Hcase as (old & c & Hold & _ & Hnew).
        assert (l = old ++ [c]) by congruence. subst l.
        rewrite !length_app. simpl. f_equal.
        now apply (Hslots j dj dx old).
    + cbn [bind]. destruct (isinstance e ValueError); [|discriminate].
      intro E. apply (Hdrop (NoFittingDataForStep step)).
      destruct (bind _ _) as [t' r']. exact E.
  - apply (Hdrop (TooFewDataPoints _ step)).
Qed.

(** X18: a partition that returns holds at least three interval centers
    and as many fits as centers; the samples of the fits are the returned
    per-interval samples, each interval holds at least 10 samples, and the
    parameter list of every slot that shares the dependency has one value
    per center. *)
Theorem partition_lists_agree (sample : list float) (all_samples : list (list float))
        (name : string) (dependency : list (option nat)) (index : nat)
        (n : option Z) (w : option float) (p : partition) :
  snd (_get_fitting_values sample all_samples name dependency index n w) = Ok p ->
  3 <= List.length (interval_centers p)
  /\ List.length (multiple_basic_fit p) = List.length (interval_centers p)
  /\ map samples (multiple_basic_fit p) = dist_values p
  /\ Forall (fun v => 10 <= List.length v) (dist_values p)
  /\ forall j dj dx l,
       index <= j ->
       getitem dependency j = Ok dj -> getitem dependency index = Ok dx ->
       same_dependency dj dx = true ->
       getitem (param_values p) j = Ok l ->
       List.length l = List.length (interval_centers p).
Proof.
  unfold _get_fitting_values. rewrite bind_lift.
  destruct (compute_intervals _ _ _ _ _) as [[centers width]|e]; [|discriminate].
  rewrite bind_lift. destruct (dependent_column _ _ _) as [column|e]; [|discriminate].
  rewrite bind_lift. destruct (stack_T _ _) as [rows|e]; [|discriminate].
  intro E. apply snd_bind_ok in E as [st [Hloop Hend]].
  destruct (List.length (interval_centers st) <? 3) eqn:H3; [discriminate|].
  simpl in Hend. injection Hend as <-. apply Nat.ltb_ge in H3.
  assert (Hbal := partition_loop_balance _ _ _ _ _ _ _ _ Hloop).
  simpl in Hbal. unfold enumerate in Hbal.
  rewrite length_combine, length_seq, Nat.min_id in Hbal.
  assert (Hlen : List.length (multiple_basic_fit st) = List.length (interval_centers st))
    by lia.
  assert (HJ : lists_agree dependency index st).
  { refine (proj2 (for_each_invariant (fun _ => True) (lists_agree dependency index)
                     _ _ _ _ _) st Hloop).
    - intros s x Hs. split.
      + apply Forall_forall. auto.
      + intros s' E. now apply partition_step_lists_agree with (st := s) (i_step := x)
                                 (sorted := sort_rows rows) (w := width) (name := name).
    - repeat split; simpl; auto.
      intros j dj dx l _ _ _ _ Hl.
      unfold getitem in Hl.
      destruct j as [|[|[|j]]]; simpl in Hl;
        [now injection Hl as <- | now injection Hl as <- | now injection Hl as <- |].
      destruct j; discriminate. }
  destruct HJ as (Hs & Hmin & Hslots).
  repeat split; try assumption.
  intros j dj dx l Hj Hdj Hdx Hsame Hl. rewrite <- Hlen. now apply (Hslots j dj dx l).
Qed.

End Partition.

Lemma center_count_fixed_number_witness :
  exists (t : list event) (p : partition),
    @_get_fitting_values converging_on_retry sample_50 [covariate_50; sample_50]
                         "Weibull" [Some 0; None; None] 0 (Some 5%Z) None = (t, Ok p)
    /\ interval_centers p
       = [0.029999999999999999; 0.089999999999999997; 0.14999999999999999;
          0.20999999999999999; 0.27000000000000002]%float
    /\ (0.059999999999999998 = (0.3 * 1 - 0) / Z2F 5)%float
    /\ Z.of_nat (List.length (interval_centers p))
       = (5 - Z.of_nat (underpopulated (sort_rows (combine sample_50 covariate_50))
                                       0.059999999999999998
                                       [0.029999999999999999; 0.089999999999999997;
                                        0.14999999999999999; 0.20999999999999999;
                                        0.27000000000000002]%float))%Z.
Proof.
  eexists. eexists. split; [vm_compute; reflexivity|]. split; [reflexivity|].
  eapply (@center_count_fixed_number converging_on_retry sample_50
            [covariate_50; sample_50] "Weibull" [Some 0; None; None] 0 5%Z None
            covariate_50 0.3%float).
  - discriminate.
  - reflexivity.
  - vm_compute. reflexivity.
  - vm_compute. reflexivity.
  - vm_compute. reflexivity.
  - reflexivity.
Defined.

Lemma append_params_spec_witness :
  exists (pv' : list (list param)) (bf : BasicFit),
    snd (@_append_params converging_on_retry "Weibull" [[]; []; []]
                         [Some 0; None; Some 0] 0 [1; 2]%float) = Ok (pv', bf)
    /\ pv' = [[ConstantParam 1.5%float]; []; [ConstantParam 3%float]]
    /\ samples bf = [1; 2]%float.
Proof.
  eexists. eexists. split; [reflexivity|]. split; [reflexivity|].
  apply (proj1 (@append_params_spec converging_on_retry "Weibull" [[]; []; []] _
                  [Some 0; None; Some 0] 0 [1; 2]%float _ eq_refl)).
Defined.

Lemma partition_lists_agree_witness :
  exists p : partition,
    snd (@_get_fitting_values converging_on_retry sample_45 [covariate_45; sample_45]
                              "Weibull" [Some 0; None; None] 0 None (Some 1%float)) = Ok p
    /\ 3 <= List.length (interval_centers p)
    /\ List.length (multiple_basic_fit p) = List.length (interval_centers p)
    /\ map samples (multiple_basic_fit p) = dist_values p
    /\ Forall (fun v => 10 <= List.length v) (dist_values p)
    /\ forall j dj dx l,
         0 <= j ->
         getitem [Some 0; None; None] j = Ok dj -> getitem [Some 0; None; None] 0 = Ok dx ->
         same_dependency dj dx = true ->
         getitem (param_values p) j = Ok l ->
         List.length l = List.length (interval_centers p).
Proof.
  eexists. split; [vm_compute; reflexivity|].
  apply (@partition_lists_agree converging_on_retry sample_45
           [covariate_45; sample_45] "Weibull" [Some 0; None; None] 0 None (Some 1%float)).
  vm_compute. reflexivity.
Defined.

(** ** The coordinator *)

(** X19: [Fit.__init__] returns exactly when the sequence of samples is
    empty and the constructor [MultivariateDistribution] accepts two empty
    lists; with at least one dimension every call raises, whatever the
    estimators and the constructors do. *)
Theorem Fit_init_returns_iff `{Scipy} `{Distributions} (samples : list (list float))
        (dist_descriptions : list dist_description) :
  (exists fit : Fit, Fit_init samples dist_descriptions = Ok fit)
  <-> samples = [] /\ MultivariateDistribution_init [] [] = None.
Proof.
  split.
  - intros [fit E].
    pose proof (Fit_init_needs_no_dimension samples dist_descriptions fit E) as ->.
    split; [reflexivity|].
    unfold Fit_init in E. cbn in E.
    destruct (MultivariateDistribution_init [] []); [discriminate | reflexivity].
  - intros [-> Hm]. unfold Fit_init. cbn. rewrite Hm. eexists. reflexivity.
Qed.

Lemma get_distribution_sets_no_parameter_witness :
  @make_distribution accepting (get (key_name (description "Normal" [])) "Weibull")
                     [None; None; None]
  = Ok (Some (NormalDistribution [None; None; None]))
  /\ PyList [PyNone; PyNone; PyNone] = PyList [PyNone; PyNone; PyNone]
  /\ PyFitInspectionData FitInspectionData_init
     = PyFitInspectionData FitInspectionData_init.
Proof.
  apply (@get_distribution_sets_no_parameter converging_at_once accepting 0 [[1; 2]%float]
           (description "Normal" []) (Some (NormalDistribution [None; None; None])) []
           (PyList [PyNone; PyNone; PyNone]) (PyFitInspectionData FitInspectionData_init)).
  - reflexivity.
  - reflexivity.
Defined.

(** ** Bounds and settings *)

Section Settings.

Context `{Scipy}.

(** X22: whatever [curve_fit] does, the curve fit statement calls it at most
    twice and issues at most one warning. *)
Theorem curve_fit_called_at_most_twice (name : string) (dimension i : nat)
        (function_name : option string) (centers fit_points : list float) :
  List.length (filter is_curve_fit
                      (fst (fit_curve name dimension i function_name centers fit_points)))
  <= 2
  /\ List.length (filter is_warning
                         (fst (fit_curve name dimension i function_name centers fit_points)))
     <= 1.
Proof.
  unfold fit_curve, try_except. rewrite !bind_lift.
  destruct (_get_function function_name) as [g|e0]; simpl.
  - destruct (curve_fit g centers fit_points None) as [popt|e]; simpl; [lia|].
    destruct (isinstance e RuntimeError); simpl; [|lia].
    destruct (param_name_of name i) as [pn|e']; simpl; [|lia].
    destruct (curve_fit g centers fit_points (Some maxfev_retry)) as [popt|e2]; simpl; [lia|].
    destruct (isinstance e2 RuntimeError); simpl; lia.
  - destruct (isinstance e0 RuntimeError) eqn:E0; simpl; [|lia].
    destruct (param_name_of name i) as [pn|e']; simpl; lia.
Qed.

(** X23: in [_get_fitting_values] a number of intervals other than 0 wins
    over a bin width given with it, and a number of 0 counts as not given:
    the bin width, if any, is then used. *)
Theorem number_of_intervals_takes_precedence (sample : list float)
        (all_samples : list (list float)) (name : string)
        (dependency : list (option nat)) (index : nat) (n : option Z) (w : option float) :
  _get_fitting_values sample all_samples name dependency index n w
  = if truthy_int n
    then _get_fitting_values sample all_samples name dependency index n None
    else _get_fitting_values sample all_samples name dependency index None w.
Proof.
  unfold _get_fitting_values, compute_intervals, truthy_int.
  destruct n as [z|]; [|reflexivity].
  destruct (negb (z =? 0)%Z); reflexivity.
Qed.

End Settings.
